(** * character-authenticator: the base authenticator and its request pipeline

    A shallow embedding of [src/base.js] (class [BaseAuthenticator]) and of
    its two subclasses ([lib/post.js] and the reserved GET variant).

    The class is glue around collaborators that live outside the
    repository: the ORM ([Core$Identity.findOne], [Core$Identity.create]),
    the event bus ([character.emit]), the session primitive
    ([req.character.set]) and the HTTP response ([res.redirect]).  Every call
    to one of them is recorded, in order, in the [trace] of the [World]; each
    may throw, as decided by a failure oracle of the host ([host_fault]).
    Asynchronous code ([async]/[await], [asyncpipe]) runs one step after the
    other, so a promise is a computation in the state-and-exception monad
    [M]: a rejected promise is a [Throw].

    Not modelled: the [debug] logger, whose calls have no effect on the
    behaviour.  Arguments have the shape their JSDoc gives them (an account
    has an integer [id]; a thrown value is an [Error]). *)

From Stdlib Require Import ZArith String Ascii List.
From stdpp Require Import gmap strings list fin_maps.

Local Open Scope string_scope.
Local Open Scope Z_scope.
Local Open Scope list_scope.

(** ** JavaScript values *)

(** Object references: addresses in the heap of the construction model. *)
Abbreviation loc := positive (only parsing).

Inductive Value : Type :=
  | VUndefined
  | VNull
  | VBool (b : bool)
  | VNum (n : Z)
  | VStr (s : string)
  | VRef (l : loc).

Global Instance Value_eq_dec : EqDecision Value.
Proof. solve_decision. Defined.

(** ToBoolean, as used by [if (x)], [!x], [x || y] and [c ? a : b]. *)
Definition truthy (v : Value) : bool :=
  match v with
  | VUndefined | VNull => false
  | VBool b => b
  | VNum n => negb (n =? 0)
  | VStr s => negb (String.eqb s "")
  | VRef _ => true
  end.

(** ** Constants of [http-codes] *)

Definition INTERNAL_SERVER_ERROR : Z := 500.
Definition NOT_FOUND : Z := 404.
Definition SEE_OTHER : Z := 303.

(** ** Data model *)

(** A thrown [Error]; [httpStatusCode] is absent unless the thrower set it. *)
Record Error : Type := mkError {
  message : string;
  httpStatusCode : option Z
}.

(** The account an authenticator reports: an external id and, optionally, a
    [deferred] flag ([VUndefined] when absent). *)
Record Account : Type := mkAccount {
  account_id : Z;
  account_deferred : Value
}.

(** A row of [Authentication$Account], as written by [onboard]. *)
Record AccountRow : Type := mkAccountRow {
  authenticatorAccountId : Z;
  authenticatorName : string
}.

(** A [Core$Identity] with its associated account rows: the plain object
    that [create(..., { include })] followed by [get({ plain: true })]
    returns, and the shape in which the store keeps it. *)
Record Identity : Type := mkIdentity {
  identity_id : Z;
  authentication_Accounts : list AccountRow
}.

(** What [findOne({ attributes: ['id'], ..., raw: true })] returns. *)
Record FoundIdentity : Type := mkFound { found_id : Z }.

Record AuthenticatorInfo : Type := mkInfo {
  info_account : Account;
  info_name : string
}.

(** The session payload [{ authenticator: { account, name }, id?, deferred? }];
    [None] is an absent field. *)
Record User : Type := mkUser {
  user_authenticator : AuthenticatorInfo;
  user_id : option Z;
  user_deferred : option bool
}.

(** Reading [user.deferred] in a boolean position: an absent field reads
    [undefined], which is falsy. *)
Definition field_truthy (d : option bool) : bool :=
  match d with Some b => b | None => false end.

(** Request and response objects are identified by a handle. *)
Abbreviation Req := nat (only parsing).
Abbreviation Res := nat (only parsing).

(** [{ req, res }], the argument of [authenticate]. *)
Record Context : Type := mkContext {
  ctx_req : Req;
  ctx_res : Res
}.

(** [{ account, req, res }], the argument that [identify] destructures. *)
Record AuthContext : Type := mkAuthContext {
  auth_account : Account;
  auth_req : Req;
  auth_res : Res
}.

(** [{ req, res, user }], the value [identify] returns. *)
Record UserContext : Type := mkUserContext {
  uctx_req : Req;
  uctx_res : Res;
  uctx_user : User
}.

(** The configuration surface the base class reads. *)
Record Config : Type := mkConfig {
  successRedirect : string;
  deferredRedirect : string;
  failureRedirect : string;
  onboardKnownAccounts : Value
}.

(** ** Host effects *)

Inductive Payload : Type :=
  | AuthenticatePayload (datetime : Z) (user : User)
  | OnboardPayload (account : Account) (datetime : Z) (identity : Identity).

Inductive Effect : Type :=
  | FindOne (accountId : Z) (name : string)
  | Create (accountId : Z) (name : string)
  | Emit (event : string) (payload : Payload)
  | SessionSet (req : Req) (user : User)
  | Redirect (res : Res) (status : Z) (url : string).

(** The state a request runs in: the identity store, the host calls made so
    far (oldest first) and the wall clock that [new Date()] reads. *)
Record World : Type := mkWorld {
  identities : list Identity;
  trace : list Effect;
  clock : Z
}.

(** ** The monad of promises *)

Inductive Result (A : Type) : Type :=
  | Return (a : A)
  | Throw (e : Error).
Arguments Return {A} a.
Arguments Throw {A} e.

Definition M (A : Type) : Type := World -> Result A * World.

Definition ret {A} (a : A) : M A := fun w => (Return a, w).

Definition throw {A} (e : Error) : M A := fun w => (Throw e, w).

Definition bind {A B} (m : M A) (k : A -> M B) : M B :=
  fun w =>
    match m w with
    | (Return a, w') => k a w'
    | (Throw e, w') => (Throw e, w')
    end.

(** [try { m } catch (error) { h error }] *)
Definition try_catch {A} (m : M A) (h : Error -> M A) : M A :=
  fun w =>
    match m w with
    | (Return a, w') => (Return a, w')
    | (Throw e, w') => h e w'
    end.

Declare Scope promise_scope.
Delimit Scope promise_scope with promise.
Notation "x <- c ;; k" := (bind c (fun x => k))
  (at level 100, c at next level, right associativity) : promise_scope.
Notation "c ;;; k" := (bind c (fun _ => k))
  (at level 100, right associativity) : promise_scope.
Local Open Scope promise_scope.

(** [asyncpipe(f, g)]: await [f], feed its value to [g]. *)
Definition pipe {A B C} (f : A -> M B) (g : B -> M C) : A -> M C :=
  fun a => b <- f a ;; g b.
Infix ">=>" := pipe (at level 61, left associativity) : promise_scope.

(** [new Date()] *)
Definition new_Date : M Z := fun w => (Return (clock w), w).

(** An authenticator instance: [this.name], [this.config] and the
    [authenticate] method a subclass supplies. *)
Record Authenticator : Type := mkAuthenticator {
  name : string;
  config : Config;
  authenticate : Context -> M AuthContext
}.

(** ** The store behind [Core$Identity] *)

Definition row_matches (accountId : Z) (n : string) (r : AccountRow) : bool :=
  (authenticatorAccountId r =? accountId) && String.eqb (authenticatorName r) n.

(** The [include ... where] of [findIdentity]: the identity has an associated
    account row with this account id and authenticator name. *)
Definition linked (accountId : Z) (n : string) (i : Identity) : bool :=
  existsb (row_matches accountId n) (authentication_Accounts i).

(** [findOne] returns one matching row, or null when none matches.  The
    query of [findIdentity] asks for no order, so that which row comes back
    when several match is the database's choice; the model takes the first
    in the order of creation.  The properties below are stated where at
    most one row matches, or for whichever row is returned. *)
Definition select_identity (accountId : Z) (n : string) (db : list Identity)
  : option FoundIdentity :=
  match find (linked accountId n) db with
  | Some i => Some (mkFound (identity_id i))
  | None => None
  end.

(** The next value of the auto-incremented primary key. *)
Definition fresh_id (db : list Identity) : Z :=
  1 + fold_right Z.max 0 (map identity_id db).

Definition log (eff : Effect) (w : World) : World :=
  mkWorld (identities w) (trace w ++ [eff]) (clock w).

Definition store (i : Identity) (w : World) : World :=
  mkWorld (identities w ++ [i]) (trace w) (clock w).

(** ** [querystring.stringify] *)

(** Characters that [querystring.escape] leaves as they are: letters, digits
    and [- _ . ! ~ * ' ( )]. *)
Definition unreserved (c : ascii) : bool :=
  let n := Z.of_N (N_of_ascii c) in
  ((48 <=? n) && (n <=? 57)) || ((65 <=? n) && (n <=? 90))
  || ((97 <=? n) && (n <=? 122))
  || existsb (Z.eqb n) [45; 95; 46; 33; 126; 42; 39; 40; 41].

Definition hex_digit (n : Z) : ascii :=
  ascii_of_N (Z.to_N (if n <? 10 then 48 + n else 55 + n)).

(** [%XX] with upper-case digits, one triple per byte. *)
Definition percent_encode (c : ascii) : string :=
  let n := Z.of_N (N_of_ascii c) in
  String "%" (String (hex_digit (n / 16)) (String (hex_digit (n mod 16)) "")).

Fixpoint escape (s : string) : string :=
  match s with
  | EmptyString => EmptyString
  | String c rest =>
      if unreserved c then String c (escape rest)
      else percent_encode c +:+ escape rest
  end.

(** The value of a hexadecimal digit, in either case. *)
Definition hex_value (c : ascii) : option Z :=
  let n := Z.of_N (N_of_ascii c) in
  if (48 <=? n) && (n <=? 57) then Some (n - 48)
  else if (65 <=? n) && (n <=? 70) then Some (n - 55)
  else if (97 <=? n) && (n <=? 102) then Some (n - 87)
  else None.

(** [querystring.unescape] on a string of bytes: every [%XX] is replaced by
    the byte it denotes; a [%] that is not followed by two hexadecimal
    digits is kept. *)
Fixpoint unescape (s : string) : string :=
  match s with
  | EmptyString => EmptyString
  | String c rest =>
      if Ascii.eqb c "%" then
        match rest with
        | String h (String l rest') =>
            match hex_value h, hex_value l with
            | Some a, Some b =>
                String (ascii_of_N (Z.to_N (16 * a + b))) (unescape rest')
            | _, _ => String c (unescape rest)
            end
        | _ => String c (unescape rest)
        end
      else String c (unescape rest)
  end.

(** One [key=value] pair; a value that is [undefined] is written empty. *)
Definition stringify_pair (kv : string * option string) : string :=
  escape (fst kv) +:+ "=" +:+
  match snd kv with Some v => escape v | None => "" end.

Fixpoint stringify (obj : list (string * option string)) : string :=
  match obj with
  | [] => ""
  | [kv] => stringify_pair kv
  | kv :: rest => stringify_pair kv +:+ "&" +:+ stringify rest
  end.

Section Host.

(** The failure oracle of the host: [Some e] when this call throws [e]. *)
Variable host_fault : Effect -> option Error.

(** [http.STATUS_CODES]: the status text of a code, when it has one. *)
Variable httpCodeMessage : Z -> option string.

(** A call into the host: it throws, leaving no record, or it is carried
    out and recorded. *)
Definition perform (eff : Effect) : M unit :=
  fun w =>
    match host_fault eff with
    | Some e => (Throw e, w)
    | None => (Return tt, log eff w)
    end.

(** [Core$Identity.findOne] with the options of [findIdentity] *)
Definition findOne (accountId : Z) (n : string) : M (option FoundIdentity) :=
  perform (FindOne accountId n) ;;;
  fun w => (Return (select_identity accountId n (identities w)), w).

(** [Core$Identity.create] with one associated account row, then
    [get({ plain: true })] *)
Definition create (accountId : Z) (n : string) : M Identity :=
  perform (Create accountId n) ;;;
  fun w =>
    let i := mkIdentity (fresh_id (identities w)) [mkAccountRow accountId n] in
    (Return i, store i w).

Definition emit (event : string) (p : Payload) : M unit :=
  perform (Emit event p).

(** ** [BaseAuthenticator] *)

(** [authenticate] of the base class: it must be overridden. *)
Definition base_authenticate (n : string) (ctx : Context) : M AuthContext :=
  throw (mkError
    ("Authenticator#authenticate must be subclassed. My name: " +:+ n)
    (Some INTERNAL_SERVER_ERROR)).

Definition findIdentity (self : Authenticator) (account : Account)
  : M (option FoundIdentity) :=
  findOne (account_id account) (name self).

Definition onboard (self : Authenticator) (account : Account) : M Identity :=
  identity <- create (account_id account) (name self) ;;
  now <- new_Date ;;
  emit "authentication:onboard" (OnboardPayload account now identity) ;;;
  ret identity.

Definition identify (self : Authenticator) (ctx : AuthContext) : M UserContext :=
  let account := auth_account ctx in
  let user := mkUser (mkInfo account (name self)) None None in
  user <-
    (if truthy (account_deferred account) then
       ret (mkUser (user_authenticator user) (user_id user) (Some true))
     else
       identity <- findIdentity self account ;;
       match identity with
       | Some identity =>
           ret (mkUser (user_authenticator user) (Some (found_id identity))
                  (user_deferred user))
       | None =>
           if truthy (onboardKnownAccounts (config self)) then
             newIdentity <- onboard self account ;;
             ret (mkUser (user_authenticator user)
                    (Some (identity_id newIdentity)) (user_deferred user))
           else
             throw (mkError "Could not find identity for account"
                      (Some NOT_FOUND))
       end) ;;
  now <- new_Date ;;
  emit "authentication:authenticate" (AuthenticatePayload now user) ;;;
  ret (mkUserContext (auth_req ctx) (auth_res ctx) user).

(** [a || b] on an optional number: [undefined] and [0] are falsy. *)
Definition or_default (a : option Z) (b : Z) : Z :=
  match a with
  | Some n => if n =? 0 then b else n
  | None => b
  end.

(** [res.redirect(status, url)] *)
Definition redirect (res : Res) (status : Z) (url : string) : M unit :=
  perform (Redirect res status url).

(** Third step of the pipeline: log the user in by creating a session,
    unless the user is deferred. *)
Definition set_session (req : Req) (context : UserContext) : M UserContext :=
  (if negb (field_truthy (user_deferred (uctx_user context))) then
     perform (SessionSet req (uctx_user context))
   else ret tt) ;;;
  ret context.

(** Fourth step of the pipeline: redirect the user. *)
Definition redirect_user (self : Authenticator) (context : UserContext) : M unit :=
  redirect (uctx_res context) SEE_OTHER
    (if field_truthy (user_deferred (uctx_user context))
     then deferredRedirect (config self)
     else successRedirect (config self)).

(** The body of the [try] block. *)
Definition pipeline (self : Authenticator) (req : Req) : Context -> M unit :=
  authenticate self >=> identify self >=> set_session req >=> redirect_user self.

(** The body of the [catch] block. *)
Definition on_error (self : Authenticator) (res : Res) (error : Error) : M unit :=
  let query :=
    stringify
      [("reason",
        httpCodeMessage (or_default (httpStatusCode error) INTERNAL_SERVER_ERROR))] in
  redirect res SEE_OTHER (failureRedirect (config self) +:+ "?" +:+ query).

Definition receiver (self : Authenticator) (req : Req) (res : Res) : M unit :=
  try_catch (pipeline self req (mkContext req res)) (on_error self res).

End Host.

(** ** Construction *)

(** Objects are maps from property names to values; the heap maps
    references to objects, so that two references to one object alias. *)
Abbreviation Obj := (gmap string Value) (only parsing).
Abbreviation Heap := (gmap loc (gmap string Value)) (only parsing).

(** lodash [clone]: a shallow copy.  An object is copied into a new object
    with the same properties, whose values are the same values (a nested
    object is the same object); any other value is returned as it is. *)
Definition clone (h : Heap) (v : Value) : Heap * Value :=
  match v with
  | VRef l =>
      match h !! l with
      | Some o => let l' := fresh (dom h) in (<[l' := o]> h, VRef l')
      | None => (h, v)
      end
  | _ => (h, v)
  end.

(** [v.k]: [None] stands for the TypeError of reading a property of
    [undefined] or [null]. *)
Definition get_prop (h : Heap) (v : Value) (k : string) : option Value :=
  match v with
  | VRef l =>
      match h !! l with
      | Some o => Some (default VUndefined (o !! k))
      | None => None
      end
  | VUndefined | VNull => None
  | _ => Some VUndefined
  end.

(** [v.k1.k2...kn] *)
Fixpoint get_path (h : Heap) (v : Value) (path : list string) : option Value :=
  match path with
  | [] => Some v
  | k :: rest =>
      match get_prop h v k with
      | Some v' => get_path h v' rest
      | None => None
      end
  end.

(** [target.k = v], on an object. *)
Definition set_prop (h : Heap) (target : Value) (k : string) (v : Value)
  : option Heap :=
  match target with
  | VRef l =>
      match h !! l with
      | Some o => Some (<[l := <[k := v]> o]> h)
      | None => None
      end
  | _ => None
  end.

(** [delete target.k], on an object. *)
Definition delete_prop (h : Heap) (target : Value) (k : string) : option Heap :=
  match target with
  | VRef l =>
      match h !! l with
      | Some o => Some (<[l := delete k o]> h)
      | None => None
      end
  | _ => None
  end.

(** [root.k1...kn.k = v] *)
Definition assign_path (h : Heap) (root : Value) (path : list string)
    (k : string) (v : Value) : option Heap :=
  match get_path h root path with
  | Some target => set_prop h target k v
  | None => None
  end.

(** [s.startsWith(prefix)] *)
Fixpoint startsWith (s prefix : string) {struct prefix} : bool :=
  match prefix with
  | EmptyString => true
  | String p prefix' =>
      match s with
      | String c s' => Ascii.eqb c p && startsWith s' prefix'
      | EmptyString => false
      end
  end.

(** [s.slice(n)] for [n >= 0] *)
Fixpoint slice (s : string) (n : nat) {struct n} : string :=
  match n with
  | O => s
  | S n' =>
      match s with
      | String _ s' => slice s' n'
      | EmptyString => EmptyString
      end
  end.

Inductive Handler : Type :=
  | Middleware (f : Value)
  | CallReceiver
  | CallCallback.

Record Route : Type := mkRoute {
  route_method : string;
  route_path : string;
  route_handlers : list Handler
}.

(** [deps]: the bag must supply the session middleware.  [session] is the
    value found under that key and [session_is_function] tells whether
    [typeof] calls it a function. *)
Record Deps : Type := mkDeps {
  session : Value;
  session_is_function : bool
}.

(** [typeof deps.session === 'function']: only an object can be one. *)
Definition session_callable (deps : Deps) : bool :=
  match session deps with
  | VRef _ => session_is_function deps
  | _ => false
  end.

(** [Object.prototype.toString.call(v)], for a value that is not a
    function *)
Definition type_tag (v : Value) : string :=
  match v with
  | VUndefined => "[object Undefined]"
  | VNull => "[object Null]"
  | VBool _ => "[object Boolean]"
  | VNum _ => "[object Number]"
  | VStr _ => "[object String]"
  | VRef _ => "[object Object]"
  end.

(** [character], as far as the constructor reads it:
    [character.database.models]. *)
Record Character : Type := mkCharacter { database_models : gmap string Value }.

(** The fields the constructor sets on [this]. *)
Record This : Type := mkThis {
  this_character : Character;
  this_config : Value;
  this_deps : Deps;
  this_name : string;
  this_router : list Route;
  this_models : gmap string Value
}.

(** The two hooks a subclass overrides; they register routes on
    [this.router]. *)
Record Class : Type := mkClass {
  define : Deps -> list Route -> Result (list Route);
  extend : Deps -> list Route -> Result (list Route)
}.

Definition BaseAuthenticator : Class :=
  mkClass
    (fun _ _ =>
       Throw (mkError "Authenticator#define must be overriden by subclass" None))
    (fun _ router => Return router).

(** express [router.METHOD(path, this.deps.session, handler)], [handler]
    being an arrow function of the class: the route is added to the router,
    unless the middleware is not a function, which express refuses with an
    error. *)
Definition add_route (deps : Deps) (method path : string) (handler : Handler)
    (router : list Route) : Result (list Route) :=
  if session_callable deps then
    Return (router ++ [mkRoute method path [Middleware (session deps); handler]])
  else
    Throw (mkError
             ("Route." +:+ method +:+
              "() requires a callback function but got a " +:+
              type_tag (session deps))
             None).

(** [lib/post.js] *)
Definition POSTAuthenticator : Class :=
  mkClass
    (fun deps router => add_route deps "post" "/" CallReceiver router)
    (extend BaseAuthenticator).


Section Construction.

(** The [capitalize] package. *)
Variable capitalize : string -> string.

Definition models_prefix (n : string) : string :=
  "Authentication$" +:+ capitalize n +:+ "$".

(** [forEach(models, (model, name) => ...)] filling [this.models = {}] *)
Definition attachModels (n : string) (models : gmap string Value)
  : gmap string Value :=
  let prefix := models_prefix n in
  map_fold
    (fun name model (this_models : gmap string Value) =>
       if startsWith name prefix then
         <[slice name (String.length prefix) := model]> this_models
       else this_models)
    ∅ models.

Definition constructor (cls : Class) (n : string) (config : Value)
    (deps : Deps) (character : Character) (h : Heap)
  : Result This * Heap :=
  let '(h', config') := clone h config in
  let models := attachModels n (database_models character) in
  match define cls deps [] with
  | Throw e => (Throw e, h')
  | Return router =>
      match extend cls deps router with
      | Throw e => (Throw e, h')
      | Return router' =>
          (Return (mkThis character config' deps n router' models), h')
      end
  end.

End Construction.

(** ** Reading the trace *)

(** Calls into the identity store. *)
Definition is_store_call (eff : Effect) : bool :=
  match eff with
  | FindOne _ _ | Create _ _ => true
  | _ => false
  end.

Definition is_create (eff : Effect) : bool :=
  match eff with Create _ _ => true | _ => false end.

Definition is_emit (event : string) (eff : Effect) : bool :=
  match eff with Emit ev _ => String.eqb ev event | _ => false end.

Definition is_session_set (eff : Effect) : bool :=
  match eff with SessionSet _ _ => true | _ => false end.

Definition is_redirect (eff : Effect) : bool :=
  match eff with Redirect _ _ _ => true | _ => false end.

(** How many of the effects satisfy [p]. *)
Definition count (p : Effect -> bool) (t : list Effect) : nat :=
  length (filter (fun eff => p eff = true) t).

Definition authenticate_event (now : Z) (user : User) : Effect :=
  Emit "authentication:authenticate" (AuthenticatePayload now user).

Definition onboard_event (account : Account) (now : Z) (identity : Identity) : Effect :=
  Emit "authentication:onboard" (OnboardPayload account now identity).

(** The identity that [onboard] creates in store [db]. *)
Definition new_identity (self : Authenticator) (account : Account)
    (db : list Identity) : Identity :=
  mkIdentity (fresh_id db) [mkAccountRow (account_id account) (name self)].

(** Host calls that are neither a redirect nor a session write. *)
Definition no_response (t : list Effect) : Prop :=
  count is_redirect t = 0%nat /\ count is_session_set t = 0%nat.

(** The status text that the [catch] block looks up for [error]. *)
Definition failure_reason (httpCodeMessage : Z -> option string) (error : Error)
  : option string :=
  httpCodeMessage (or_default (httpStatusCode error) INTERNAL_SERVER_ERROR).

(** The value of the [reason] parameter: the text as [querystring] writes it. *)
Definition reason_value (httpCodeMessage : Z -> option string) (error : Error)
  : string :=
  match failure_reason httpCodeMessage error with
  | Some text => escape text
  | None => ""
  end.

Definition failure_url (httpCodeMessage : Z -> option string)
    (self : Authenticator) (error : Error) : string :=
  failureRedirect (config self) +:+ "?reason=" +:+ reason_value httpCodeMessage error.

(** ** Concrete instances *)

(** The table of Node's [http] module. *)
Definition STATUS_CODES_table : list (Z * string) :=
  [(100, "Continue"); (101, "Switching Protocols"); (102, "Processing");
   (200, "OK"); (201, "Created"); (202, "Accepted");
   (203, "Non-Authoritative Information"); (204, "No Content");
   (205, "Reset Content"); (206, "Partial Content"); (207, "Multi-Status");
   (208, "Already Reported"); (226, "IM Used");
   (300, "Multiple Choices"); (301, "Moved Permanently"); (302, "Found");
   (303, "See Other"); (304, "Not Modified"); (305, "Use Proxy");
   (307, "Temporary Redirect"); (308, "Permanent Redirect");
   (400, "Bad Request"); (401, "Unauthorized"); (402, "Payment Required");
   (403, "Forbidden"); (404, "Not Found"); (405, "Method Not Allowed");
   (406, "Not Acceptable"); (407, "Proxy Authentication Required");
   (408, "Request Timeout"); (409, "Conflict"); (410, "Gone");
   (411, "Length Required"); (412, "Precondition Failed");
   (413, "Payload Too Large"); (414, "URI Too Long");
   (415, "Unsupported Media Type"); (416, "Range Not Satisfiable");
   (417, "Expectation Failed"); (418, "I'm a teapot");
   (421, "Misdirected Request"); (422, "Unprocessable Entity");
   (423, "Locked"); (424, "Failed Dependency");
   (425, "Unordered Collection"); (426, "Upgrade Required");
   (428, "Precondition Required"); (429, "Too Many Requests");
   (431, "Request Header Fields Too Large");
   (451, "Unavailable For Legal Reasons");
   (500, "Internal Server Error"); (501, "Not Implemented");
   (502, "Bad Gateway"); (503, "Service Unavailable");
   (504, "Gateway Timeout"); (505, "HTTP Version Not Supported");
   (506, "Variant Also Negotiates"); (507, "Insufficient Storage");
   (508, "Loop Detected"); (509, "Bandwidth Limit Exceeded");
   (510, "Not Extended"); (511, "Network Authentication Required")].

Definition STATUS_CODES (code : Z) : option string :=
  match find (fun entry => fst entry =? code) STATUS_CODES_table with
  | Some entry => Some (snd entry)
  | None => None
  end.

(** A host none of whose calls fails. *)
Definition no_fault : Effect -> option Error := fun _ => None.

(** A host whose session store is down. *)
Definition session_down : Effect -> option Error :=
  fun eff =>
    match eff with
    | SessionSet _ _ => Some (mkError "session store unavailable" None)
    | _ => None
    end.

(** A host on which redirecting to [/home] fails with Bad Gateway. *)
Definition home_unreachable : Effect -> option Error :=
  fun eff =>
    match eff with
    | Redirect _ _ url =>
        if String.eqb url "/home" then Some (mkError "write failed" (Some 502))
        else None
    | _ => None
    end.

(** A host on which the listeners of the onboard event throw. *)
Definition listeners_down : Effect -> option Error :=
  fun eff =>
    match eff with
    | Emit event _ =>
        if String.eqb event "authentication:onboard"
        then Some (mkError "listener failed" None)
        else None
    | _ => None
    end.

(** An authenticator subclass that reports [account]. *)
Definition reporting (account : Account) (ctx : Context) : M AuthContext :=
  ret (mkAuthContext account (ctx_req ctx) (ctx_res ctx)).

Definition account7 : Account := mkAccount 7 VUndefined.

(** The account of a magic-link flow; its flag is truthy without being
    the boolean [true]. *)
Definition magic_account : Account := mkAccount 9 (VStr "email").

Definition open_config : Config := mkConfig "/home" "/check-mail" "/login" (VBool true).
Definition closed_config : Config := mkConfig "/home" "/check-mail" "/login" VUndefined.

(** Onboarding enabled. *)
Definition local : Authenticator :=
  mkAuthenticator "local" open_config (reporting account7).

(** Onboarding disabled. *)
Definition strict : Authenticator :=
  mkAuthenticator "local" closed_config (reporting account7).

Definition mailer : Authenticator :=
  mkAuthenticator "magic" open_config (reporting magic_account).

(** An authenticator that did not override [authenticate]. *)
Definition unset : Authenticator :=
  mkAuthenticator "unset" open_config (base_authenticate "unset").

Definition ctx7 : AuthContext := mkAuthContext account7 1%nat 2%nat.
Definition magic_ctx : AuthContext := mkAuthContext magic_account 1%nat 2%nat.

Definition empty_world : World := mkWorld [] [] 1500000000.

(** Account 7 is already linked, under [local], to identity 1. *)
Definition linked_world : World :=
  mkWorld [mkIdentity 1 [mkAccountRow 7 "local"]] [] 1500000000.

(** A caller's config object (at 1) with a nested object (at 2). *)
Definition caller_heap : gmap loc (gmap string Value) :=
  <[2%positive := {["successRedirect" := VStr "/home"]}]>
    (<[1%positive := <["failureRedirect" := VStr "/login"]>
                      {["urls" := VRef 2%positive]}]> ∅).

Definition some_deps : Deps := mkDeps (VRef 10%positive) true.

(** A bag that supplies no session middleware. *)
Definition no_session : Deps := mkDeps VUndefined false.

Definition registry : gmap string Value :=
  <["Authentication$Local$Password" := VRef 20%positive]>
    (<["Authentication$Account" := VRef 21%positive]>
       (<["Core$Identity" := VRef 22%positive]>
          {["Authentication$Github$Profile" := VRef 23%positive]})).

(** [capitalize] on ASCII: the first letter in upper case. *)
Definition capitalize_ascii (s : string) : string :=
  match s with
  | EmptyString => EmptyString
  | String c rest =>
      let n := N_of_ascii c in
      String (if ((97 <=? n) && (n <=? 122))%N then ascii_of_N (n - 32) else c) rest
  end.

(** Every pair (account id, authenticator name) is linked to at most one
    identity of the store. *)
Definition links_unique (db : list Identity) : Prop :=
  forall accountId n,
    (length (List.filter (linked accountId n) db) <= 1)%nat.

(** The world [identify] leaves when it onboards [account]. *)
Definition onboarded_world (self : Authenticator) (account : Account)
    (w : World) : World :=
  let identity := new_identity self account (identities w) in
  let user := mkUser (mkInfo account (name self)) (Some (identity_id identity)) None in
  log (authenticate_event (clock w) user)
    (log (onboard_event account (clock w) identity)
       (store identity
          (log (Create (account_id account) (name self))
             (log (FindOne (account_id account) (name self)) w)))).

(** The URLs [receiver] redirects to. *)
Definition redirect_target (httpCodeMessage : Z -> option string)
    (self : Authenticator) (url : string) : Prop :=
  url = successRedirect (config self)
  \/ url = deferredRedirect (config self)
  \/ exists error, url = failure_url httpCodeMessage self error.

(** * Properties *)

Section Properties.

Variable host_fault : Effect -> option Error.
Variable httpCodeMessage : Z -> option string.

Lemma perform_ok eff w :
  host_fault eff = None -> perform host_fault eff w = (Return tt, log eff w).
Proof. intros H. unfold perform. now rewrite H. Qed.

Lemma perform_fail eff e w :
  host_fault eff = Some e -> perform host_fault eff w = (Throw e, w).
Proof. intros H. unfold perform. now rewrite H. Qed.

Lemma findIdentity_returns self account w r w1 :
  findIdentity host_fault self account w = (Return r, w1) ->
  host_fault (FindOne (account_id account) (name self)) = None
  /\ r = select_identity (account_id account) (name self) (identities w)
  /\ w1 = log (FindOne (account_id account) (name self)) w.
Proof.
  unfold findIdentity, findOne, bind, perform.
  destruct (host_fault _); simpl; intros H; inversion H; auto.
Qed.

Lemma findIdentity_ok self account w :
  host_fault (FindOne (account_id account) (name self)) = None ->
  findIdentity host_fault self account w
  = (Return (select_identity (account_id account) (name self) (identities w)),
     log (FindOne (account_id account) (name self)) w).
Proof.
  intros H. unfold findIdentity, findOne, bind. now rewrite (perform_ok _ _ H).
Qed.

Lemma onboard_ok self account w :
  host_fault (Create (account_id account) (name self)) = None ->
  (forall p, host_fault (Emit "authentication:onboard" p) = None) ->
  let identity := new_identity self account (identities w) in
  onboard host_fault self account w
  = (Return identity,
     log (onboard_event account (clock w) identity)
       (store identity (log (Create (account_id account) (name self)) w))).
Proof.
  intros Hc He identity.
  unfold onboard, create, emit, bind, new_Date, ret.
  rewrite (perform_ok _ _ Hc). simpl.
  now rewrite (perform_ok _ _ (He _)).
Qed.

Lemma onboard_returns self account w identity w1 :
  onboard host_fault self account w = (Return identity, w1) ->
  identity = new_identity self account (identities w)
  /\ w1 = log (onboard_event account (clock w) identity)
            (store identity (log (Create (account_id account) (name self)) w)).
Proof.
  unfold onboard, create, emit, bind, new_Date, ret, perform.
  destruct (host_fault (Create _ _)); simpl; [discriminate |].
  destruct (host_fault (Emit _ _)); simpl; intros H; inversion H; auto.
Qed.

(** [identify] on the branch where the lookup finds an identity. *)
Lemma identify_found_eq self ctx w identity w1 :
  truthy (account_deferred (auth_account ctx)) = false ->
  findIdentity host_fault self (auth_account ctx) w = (Return (Some identity), w1) ->
  let user :=
    mkUser (mkInfo (auth_account ctx) (name self)) (Some (found_id identity)) None in
  identify host_fault self ctx w
  = match host_fault (authenticate_event (clock w1) user) with
    | Some e => (Throw e, w1)
    | None =>
        (Return (mkUserContext (auth_req ctx) (auth_res ctx) user),
         log (authenticate_event (clock w1) user) w1)
    end.
Proof.
  intros Hd Hf user.
  unfold identify. rewrite Hd.
  unfold bind at 1. unfold bind at 1. rewrite Hf.
  unfold bind, ret, new_Date, emit, perform. simpl.
  fold user. fold (authenticate_event (clock w1) user).
  now destruct (host_fault _).
Qed.

(** C1: for an account whose [deferred] flag is truthy, [identify] makes no
    call to the identity store (no lookup, no creation) and leaves the
    store as it was; the only host call it makes is the emission of the
    authenticate event, and unless that emission throws it returns the
    user with [deferred = true] and no [id] field. *)
Theorem identify_deferred_skips_store self ctx w :
  truthy (account_deferred (auth_account ctx)) = true ->
  let user := mkUser (mkInfo (auth_account ctx) (name self)) None (Some true) in
  let out := identify host_fault self ctx w in
  (exists t, trace (snd out) = trace w ++ t
             /\ count is_store_call t = 0%nat)
  /\ identities (snd out) = identities w
  /\ match fst out with
     | Return r =>
         uctx_user r = user
         /\ user_deferred (uctx_user r) = Some true
         /\ user_id (uctx_user r) = None
     | Throw e => host_fault (authenticate_event (clock w) user) = Some e
     end.
Proof.
  intros Hd user out. subst out.
  unfold identify. rewrite Hd.
  unfold bind, ret, new_Date, emit, perform. simpl.
  fold user. fold (authenticate_event (clock w) user).
  destruct (host_fault (authenticate_event (clock w) user)) eqn:E; simpl.
  - split; [exists []; now rewrite app_nil_r | auto].
  - split; [eexists; split; [reflexivity | reflexivity] | auto].
Qed.

(** C2: for an account that is not deferred and for which [findIdentity]
    returns a linked identity, [identify] never calls [onboard] (no
    creation, no onboard event, the store is left as it was), and unless
    the emission of the authenticate event throws it returns the user
    whose [id] is that identity's id. *)
Theorem identify_reuses_linked_identity self ctx w identity w1 :
  truthy (account_deferred (auth_account ctx)) = false ->
  findIdentity host_fault self (auth_account ctx) w = (Return (Some identity), w1) ->
  let user :=
    mkUser (mkInfo (auth_account ctx) (name self)) (Some (found_id identity)) None in
  let out := identify host_fault self ctx w in
  (exists t, trace (snd out) = trace w ++ t
             /\ count is_create t = 0%nat
             /\ count (is_emit "authentication:onboard") t = 0%nat)
  /\ identities (snd out) = identities w
  /\ match fst out with
     | Return r =>
         uctx_user r = user /\ user_id (uctx_user r) = Some (found_id identity)
     | Throw e => host_fault (authenticate_event (clock w) user) = Some e
     end.
Proof.
  intros Hd Hf user out. subst out.
  rewrite (identify_found_eq _ _ _ _ _ Hd Hf).
  destruct (findIdentity_returns _ _ _ _ _ Hf) as (_ & _ & ->).
  fold user. simpl.
  destruct (host_fault (authenticate_event (clock w) user)) eqn:E; simpl.
  - split; [| auto].
    exists [FindOne (account_id (auth_account ctx)) (name self)].
    repeat split.
  - split; [| auto].
    eexists. split; [rewrite <- app_assoc; reflexivity |].
    split; reflexivity.
Qed.

(** C3: for an account that is not deferred and has no linked identity,
    with [onboardKnownAccounts] enabled and a host that carries out the
    creation and delivers the two events, [identify] calls [onboard]
    exactly once: one identity is added to the store, it has exactly one
    linked account row (this account's id under this authenticator's name),
    one onboard event is emitted with the account, that identity and the
    timestamp, and the returned user's [id] is the new identity's id. *)
Theorem identify_onboards_unknown_account self ctx w w1 :
  truthy (account_deferred (auth_account ctx)) = false ->
  findIdentity host_fault self (auth_account ctx) w = (Return None, w1) ->
  truthy (onboardKnownAccounts (config self)) = true ->
  host_fault (Create (account_id (auth_account ctx)) (name self)) = None ->
  (forall p, host_fault (Emit "authentication:onboard" p) = None) ->
  (forall p, host_fault (Emit "authentication:authenticate" p) = None) ->
  let account := auth_account ctx in
  let identity := new_identity self account (identities w) in
  let user := mkUser (mkInfo account (name self)) (Some (identity_id identity)) None in
  let added :=
    [FindOne (account_id account) (name self);
     Create (account_id account) (name self);
     onboard_event account (clock w) identity;
     authenticate_event (clock w) user] in
  exists w',
    identify host_fault self ctx w
    = (Return (mkUserContext (auth_req ctx) (auth_res ctx) user), w')
    /\ identities w' = identities w ++ [identity]
    /\ authentication_Accounts identity
       = [mkAccountRow (account_id account) (name self)]
    /\ trace w' = trace w ++ added
    /\ count is_create added = 1%nat
    /\ count (is_emit "authentication:onboard") added = 1%nat.
Proof.
  intros Hd Hf Hk Hc Ho Ha account identity user added.
  destruct (findIdentity_returns _ _ _ _ _ Hf) as (_ & _ & ->).
  unfold identify. rewrite Hd.
  unfold bind at 1. unfold bind at 1. rewrite Hf, Hk.
  unfold bind at 1. rewrite (onboard_ok self (auth_account ctx) _ Hc Ho).
  unfold bind, ret, new_Date, emit. simpl.
  rewrite (perform_ok _ _ (Ha _)).
  eexists. split; [reflexivity |]. simpl.
  repeat split. now rewrite <- !app_assoc.
Qed.

(** C4: for an account that is not deferred and has no linked identity,
    with [onboardKnownAccounts] disabled, [identify] throws an error whose
    [httpStatusCode] is Not Found (404); the store is as it was, the only
    host call made is the lookup, and no event is emitted. *)
Theorem identify_rejects_unknown_account self ctx w w1 :
  truthy (account_deferred (auth_account ctx)) = false ->
  findIdentity host_fault self (auth_account ctx) w = (Return None, w1) ->
  truthy (onboardKnownAccounts (config self)) = false ->
  exists e,
    identify host_fault self ctx w = (Throw e, w1)
    /\ httpStatusCode e = Some NOT_FOUND
    /\ NOT_FOUND = 404
    /\ identities w1 = identities w
    /\ clock w1 = clock w
    /\ trace w1 = trace w ++ [FindOne (account_id (auth_account ctx)) (name self)]
    /\ count is_create (trace w1) = count is_create (trace w)
    /\ count (is_emit "authentication:authenticate") (trace w1)
       = count (is_emit "authentication:authenticate") (trace w).
Proof.
  intros Hd Hf Hk.
  destruct (findIdentity_returns _ _ _ _ _ Hf) as (_ & _ & Hw).
  eexists. split.
  - unfold identify. rewrite Hd.
    unfold bind at 1. unfold bind at 1. rewrite Hf, Hk. reflexivity.
  - subst w1. simpl. repeat split; unfold count;
      rewrite filter_app, length_app; simpl; lia.
Qed.

(** C10: whenever [identify] returns, the last host call it made is the
    emission of [authentication:authenticate] carrying the returned user
    and the timestamp; this includes deferred accounts, for which that
    emission is the only host call made (no lookup) and after which the
    session step of the pipeline writes no session. *)
Theorem identify_emits_authenticate self ctx w r w' :
  identify host_fault self ctx w = (Return r, w') ->
  (exists t,
     trace w' = trace w ++ t ++ [authenticate_event (clock w') (uctx_user r)])
  /\ (truthy (account_deferred (auth_account ctx)) = true ->
      user_deferred (uctx_user r) = Some true
      /\ trace w' = trace w ++ [authenticate_event (clock w') (uctx_user r)]
      /\ forall req, set_session host_fault req r w' = (Return r, w')).
Proof.
  unfold identify, findIdentity, findOne, onboard, create, emit.
  unfold bind, ret, throw, new_Date, perform, authenticate_event.
  destruct (truthy (account_deferred (auth_account ctx))) eqn:Hd; simpl.
  - destruct (host_fault _); intros H; inversion H; subst; simpl.
    split; [exists []; reflexivity | auto].
  - destruct (host_fault (FindOne _ _)); simpl; [discriminate |].
    destruct (select_identity _ _ _); simpl.
    + destruct (host_fault _); intros H; inversion H; subst; simpl.
      split; [| discriminate].
      eexists. rewrite <- app_assoc. reflexivity.
    + destruct (truthy (onboardKnownAccounts (config self))); simpl;
        [| discriminate].
      destruct (host_fault (Create _ _)); simpl; [discriminate |].
      destruct (host_fault (Emit "authentication:onboard" _)); simpl;
        [discriminate |].
      destruct (host_fault _); intros H; inversion H; subst; simpl.
      split; [| discriminate].
      match goal with
      | |- context [OnboardPayload ?a ?d ?i] =>
          exists [FindOne (account_id (auth_account ctx)) (name self);
                  Create (account_id (auth_account ctx)) (name self);
                  onboard_event a d i]
      end.
      rewrite <- !app_assoc. reflexivity.
Qed.

(** *** [onboard] then [findIdentity] *)

Lemma find_append {A} (p : A -> bool) (l1 l2 : list A) :
  find p (l1 ++ l2)
  = match find p l1 with Some x => Some x | None => find p l2 end.
Proof.
  induction l1 as [| a l1 IH]; simpl; [reflexivity |].
  now destruct (p a).
Qed.

Lemma select_identity_append accountId n db1 db2 :
  select_identity accountId n (db1 ++ db2)
  = match select_identity accountId n db1 with
    | Some found => Some found
    | None => select_identity accountId n db2
    end.
Proof.
  unfold select_identity. rewrite find_append.
  now destruct (find (linked accountId n) db1).
Qed.

Lemma new_identity_linked self account db :
  linked (account_id account) (name self) (new_identity self account db) = true.
Proof.
  unfold linked, new_identity, row_matches. simpl.
  now rewrite Z.eqb_refl, String.eqb_refl.
Qed.

Lemma select_none_filter accountId n db :
  select_identity accountId n db = None ->
  List.filter (linked accountId n) db = [].
Proof.
  unfold select_identity.
  induction db as [| i db IH]; simpl; [reflexivity |].
  destruct (linked accountId n i); [discriminate |]. exact IH.
Qed.


(** *** Query-string encoding *)

Lemma unescape_unreserved c rest :
  unreserved c = true -> unescape (String c rest) = String c (unescape rest).
Proof.
  destruct c as [[] [] [] [] [] [] [] []]; intros H; vm_compute in H;
    try discriminate H; reflexivity.
Qed.

Lemma unescape_percent_encode c rest :
  unescape (percent_encode c +:+ rest) = String c (unescape rest).
Proof. destruct c as [[] [] [] [] [] [] [] []]; reflexivity. Qed.

(** Decoding what [escape] wrote gives the text back. *)
Lemma unescape_escape s : unescape (escape s) = s.
Proof.
  induction s as [| c s IH]; [reflexivity |].
  change (escape (String c s))
    with (if unreserved c then String c (escape s)
          else percent_encode c +:+ escape s).
  destruct (unreserved c) eqn:Hc.
  - now rewrite (unescape_unreserved _ _ Hc), IH.
  - now rewrite unescape_percent_encode, IH.
Qed.

(** *** The request pipeline *)

Lemma identify_no_response self ctx w :
  exists t, trace (snd (identify host_fault self ctx w)) = trace w ++ t
            /\ no_response t.
Proof.
  unfold identify, findIdentity, findOne, onboard, create, emit.
  unfold bind, ret, throw, new_Date, perform.
  destruct (truthy (account_deferred (auth_account ctx))); simpl.
  - destruct (host_fault _); simpl.
    + exists []. now rewrite app_nil_r.
    + eexists. split; [reflexivity | now split].
  - destruct (host_fault (FindOne _ _)); simpl.
    { exists []. now rewrite app_nil_r. }
    destruct (select_identity _ _ _); simpl.
    + destruct (host_fault _); simpl.
      * eexists. split; [reflexivity | now split].
      * eexists. split; [rewrite <- app_assoc; reflexivity | now split].
    + destruct (truthy (onboardKnownAccounts (config self))); simpl.
      2: { eexists. split; [reflexivity | now split]. }
      destruct (host_fault (Create _ _)); simpl.
      { eexists. split; [reflexivity | now split]. }
      destruct (host_fault (Emit "authentication:onboard" _)); simpl.
      { eexists. split; [rewrite <- app_assoc; reflexivity | now split]. }
      destruct (host_fault _); simpl.
      * eexists. split; [rewrite <- 2 app_assoc; reflexivity | now split].
      * eexists. split; [rewrite <- 3 app_assoc; reflexivity | now split].
Qed.

(** What [identify] hands on: the request and response it was given, and a
    user that is deferred exactly when the account's flag is truthy. *)
Lemma identify_returns self ctx w r w' :
  identify host_fault self ctx w = (Return r, w') ->
  uctx_req r = auth_req ctx
  /\ uctx_res r = auth_res ctx
  /\ field_truthy (user_deferred (uctx_user r))
     = truthy (account_deferred (auth_account ctx)).
Proof.
  unfold identify, findIdentity, findOne, onboard, create, emit.
  unfold bind, ret, throw, new_Date, perform.
  destruct (truthy (account_deferred (auth_account ctx))); simpl.
  - destruct (host_fault _); intros H; inversion H; now subst.
  - destruct (host_fault (FindOne _ _)); simpl; [discriminate |].
    destruct (select_identity _ _ _); simpl.
    + destruct (host_fault _); intros H; inversion H; now subst.
    + destruct (truthy (onboardKnownAccounts (config self))); simpl;
        [| discriminate].
      destruct (host_fault (Create _ _)); simpl; [discriminate |].
      destruct (host_fault (Emit "authentication:onboard" _)); simpl;
        [discriminate |].
      destruct (host_fault _); intros H; inversion H; now subst.
Qed.

Lemma set_session_trace req context w :
  exists t, trace (snd (set_session host_fault req context w)) = trace w ++ t
            /\ count is_redirect t = 0%nat.
Proof.
  unfold set_session, bind, ret, perform.
  destruct (negb _); simpl.
  - destruct (host_fault _); simpl.
    + exists []. now rewrite app_nil_r.
    + eexists. split; reflexivity.
  - exists []. now rewrite app_nil_r.
Qed.

Lemma count_app p (t1 t2 : list Effect) :
  count p (t1 ++ t2) = (count p t1 + count p t2)%nat.
Proof. unfold count. now rewrite filter_app, length_app. Qed.

Lemma on_error_redirects self res error w :
  on_error host_fault httpCodeMessage self res error w
  = redirect host_fault res SEE_OTHER (failure_url httpCodeMessage self error) w.
Proof. reflexivity. Qed.

(** C6: whenever a step of the pipeline (authenticate, identify, the
    session write or the success redirect) throws an error, and the host
    carries out the failure redirect, [receiver] answers with one See
    Other (303) redirect to [failureRedirect] followed by [?reason=] and
    the status text of the error's [httpStatusCode], written as
    [querystring.stringify] writes it (decoding the value gives the text
    back); when the code is unset the text is that of Internal Server
    Error.  The steps after [authenticate] have issued no redirect of
    their own before the throw. *)
Theorem receiver_failure_redirect self req res w error w1 :
  pipeline host_fault self req (mkContext req res) w = (Throw error, w1) ->
  host_fault (Redirect res SEE_OTHER (failure_url httpCodeMessage self error)) = None ->
  receiver host_fault httpCodeMessage self req res w
  = (Return tt, log (Redirect res SEE_OTHER (failure_url httpCodeMessage self error)) w1)
  /\ SEE_OTHER = 303
  /\ failure_url httpCodeMessage self error
     = failureRedirect (config self) +:+ "?reason="
       +:+ reason_value httpCodeMessage error
  /\ (forall text, failure_reason httpCodeMessage error = Some text ->
      reason_value httpCodeMessage error = escape text
      /\ unescape (reason_value httpCodeMessage error) = text)
  /\ (httpStatusCode error = None ->
      failure_reason httpCodeMessage error = httpCodeMessage INTERNAL_SERVER_ERROR)
  /\ (forall code, httpStatusCode error = Some code -> code <> 0 ->
      failure_reason httpCodeMessage error = httpCodeMessage code)
  /\ (exists t,
        trace w1 = trace (snd (authenticate self (mkContext req res) w)) ++ t
        /\ count is_redirect t = 0%nat).
Proof.
  intros Hp Hr.
  split; [| split; [reflexivity | split; [reflexivity | split; [| split; [| split]]]]].
  - unfold receiver, try_catch. rewrite Hp, on_error_redirects.
    unfold redirect. now rewrite (perform_ok _ _ Hr).
  - intros text Ht. unfold reason_value. rewrite Ht.
    split; [reflexivity | apply unescape_escape].
  - intros Hc. unfold failure_reason. now rewrite Hc.
  - intros code Hc Hz. unfold failure_reason, or_default. rewrite Hc.
    destruct (Z.eqb_spec code 0); [contradiction | reflexivity].
  - revert Hp. unfold pipeline, pipe, bind.
    destruct (authenticate self (mkContext req res) w) as [[actx | e0] wa];
      simpl.
    2: { intros H; inversion H; subst. exists []. now rewrite app_nil_r. }
    destruct (identify_no_response self actx wa) as (t1 & Ht1 & Hq1 & _).
    destruct (identify host_fault self actx wa) as [[uctx | e1] wi];
      simpl in *.
    2: { intros H; inversion H; subst. now exists t1. }
    destruct (set_session_trace req uctx wi) as (t2 & Ht2 & Hq2).
    destruct (set_session host_fault req uctx wi) as [[uctx' | e2] ws];
      simpl in *.
    2: { intros H; inversion H; subst. exists (t1 ++ t2).
         rewrite Ht2, Ht1, <- app_assoc, count_app, Hq1, Hq2. now split. }
    unfold redirect_user, redirect, perform.
    match goal with
    | |- context [host_fault ?eff] => destruct (host_fault eff)
    end; intros H; inversion H; subst.
    exists (t1 ++ t2).
    rewrite Ht2, Ht1, <- app_assoc, count_app, Hq1, Hq2. now split.
Qed.

(** C7: on a successful run of the pipeline, [receiver] has run
    [authenticate], then [identify] on what it returned, then written the
    session with the resulting user exactly when that user is not
    deferred, and last issued one See Other (303) redirect: to
    [successRedirect] for a user that is not deferred, to
    [deferredRedirect] for a deferred one.  The user is deferred exactly
    when the account's [deferred] flag is truthy. *)
Theorem receiver_success self req res w w' :
  pipeline host_fault self req (mkContext req res) w = (Return tt, w') ->
  exists actx w1 uctx w2,
    authenticate self (mkContext req res) w = (Return actx, w1)
    /\ identify host_fault self actx w1 = (Return uctx, w2)
    /\ field_truthy (user_deferred (uctx_user uctx))
       = truthy (account_deferred (auth_account actx))
    /\ trace w' =
       trace w2 ++
       (if field_truthy (user_deferred (uctx_user uctx))
        then [Redirect (auth_res actx) SEE_OTHER (deferredRedirect (config self))]
        else [SessionSet req (uctx_user uctx);
              Redirect (auth_res actx) SEE_OTHER (successRedirect (config self))])
    /\ identities w' = identities w2
    /\ SEE_OTHER = 303
    /\ receiver host_fault httpCodeMessage self req res w = (Return tt, w').
Proof.
  intros Hp.
  assert (Hrec : receiver host_fault httpCodeMessage self req res w
                 = (Return tt, w'))
    by (unfold receiver, try_catch; now rewrite Hp).
  revert Hp. unfold pipeline, pipe, bind.
  destruct (authenticate self (mkContext req res) w) as [[actx | e0] w1];
    simpl; [| discriminate].
  destruct (identify host_fault self actx w1) as [[uctx | e1] w2] eqn:Hi;
    simpl; [| discriminate].
  destruct (identify_returns _ _ _ _ _ Hi) as (_ & Hres & Hdef).
  unfold set_session, redirect_user, redirect, bind, ret, perform.
  intros Hp. exists actx, w1, uctx, w2.
  split; [reflexivity | split; [exact Hi | split; [exact Hdef |]]].
  rewrite <- Hres.
  destruct (field_truthy (user_deferred (uctx_user uctx))) eqn:Hft;
    simpl in Hp.
  - destruct (host_fault _); inversion Hp; subst. simpl.
    rewrite Hft in *. repeat split; auto.
  - destruct (host_fault (SessionSet _ _)); simpl in Hp; [discriminate |].
    destruct (host_fault _); inversion Hp; subst. simpl.
    rewrite Hft in *. rewrite <- app_assoc. repeat split; auto.
Qed.

End Properties.

Section ConstructionProperties.

Variable capitalize : string -> string.

Lemma startsWith_append prefix s : startsWith (prefix +:+ s) prefix = true.
Proof.
  induction prefix as [| p prefix IH]; simpl; [reflexivity |].
  now rewrite Ascii.eqb_refl, IH.
Qed.

Lemma slice_append prefix s : slice (prefix +:+ s) (String.length prefix) = s.
Proof. induction prefix as [| p prefix IH]; simpl; auto. Qed.

Lemma startsWith_split s : forall prefix,
  startsWith s prefix = true ->
  s = prefix +:+ slice s (String.length prefix).
Proof.
  induction s as [| c s IH]; intros [| p prefix]; simpl; try easy.
  intros H. apply andb_prop in H as [Hc Hs].
  apply Ascii.eqb_eq in Hc. subst p.
  change (String c s = String c (prefix +:+ slice s (String.length prefix))).
  f_equal. now apply IH.
Qed.

Lemma attachModels_lookup n (models : gmap string Value) short :
  attachModels capitalize n models !! short
  = models !! (models_prefix capitalize n +:+ short).
Proof.
  unfold attachModels. revert short.
  apply (map_fold_weak_ind
           (fun (acc : gmap string Value) (m : gmap string Value) =>
              forall short, acc !! short
                            = m !! (models_prefix capitalize n +:+ short))).
  - intros short. now rewrite !lookup_empty.
  - intros name model m acc Hfresh IH short.
    destruct (startsWith name (models_prefix capitalize n)) eqn:Hs.
    + apply startsWith_split in Hs.
      destruct (decide (slice name (String.length (models_prefix capitalize n))
                        = short)) as [<- | Hne].
      * rewrite <- Hs. now rewrite !lookup_insert_eq.
      * rewrite lookup_insert_ne by exact Hne.
        rewrite lookup_insert_ne; [apply IH |].
        intros ->. apply Hne. apply slice_append.
    + rewrite lookup_insert_ne; [apply IH |].
      intros ->. now rewrite startsWith_append in Hs.
Qed.

(** C9: [attachModels] binds exactly the models of the host registry whose
    names start with [Authentication$<capitalize(name)>$], each under the
    name that is left when the prefix is stripped: a short name is bound
    exactly when prefix + short name is registered, to the same model; a
    registered model whose name starts with the prefix is bound under its
    stripped name; every binding comes from such a model; and the
    constructor stores this map as [this.models]. *)
Theorem attachModels_binds_prefixed_models n (models : gmap string Value) :
  let prefix := "Authentication$" +:+ capitalize n +:+ "$" in
  let bound := attachModels capitalize n models in
  (forall short, bound !! short = models !! (prefix +:+ short))
  /\ (forall name model,
        models !! name = Some model -> startsWith name prefix = true ->
        bound !! slice name (String.length prefix) = Some model)
  /\ (forall short model,
        bound !! short = Some model ->
        exists name,
          models !! name = Some model /\ startsWith name prefix = true
          /\ short = slice name (String.length prefix))
  /\ (forall name model,
        models !! name = Some model -> startsWith name prefix = false ->
        forall short, name <> prefix +:+ short)
  /\ (forall cls config deps h t h1,
        constructor capitalize cls n config deps (mkCharacter models) h
        = (Return t, h1) ->
        this_models t = bound).
Proof.
  intros prefix bound.
  assert (Hl : forall short, bound !! short = models !! (prefix +:+ short))
    by (intros short; apply attachModels_lookup).
  split; [exact Hl |]. split; [| split; [| split]].
  - intros name model Hm Hs. rewrite Hl.
    now rewrite <- (startsWith_split _ _ Hs).
  - intros short model Hb. exists (prefix +:+ short).
    rewrite <- Hl. split; [exact Hb |].
    split; [apply startsWith_append | now rewrite slice_append].
  - intros name model _ Hs short ->. now rewrite startsWith_append in Hs.
  - intros cls config deps h t h1. unfold constructor.
    destruct (clone h config) as [h' config'].
    destruct (define cls deps []); [| discriminate].
    destruct (extend cls deps a); [| discriminate].
    intros H. inversion H. reflexivity.
Qed.

Lemma clone_object (h : gmap loc (gmap string Value)) l o :
  h !! l = Some o ->
  clone h (VRef l) = (<[fresh (dom h) := o]> h, VRef (fresh (dom h))).
Proof. intros H. unfold clone. now rewrite H. Qed.

Lemma fresh_unused (h : gmap loc (gmap string Value)) : h !! fresh (dom h) = None.
Proof. apply not_elem_of_dom, is_fresh. Qed.

(** C8, as amended: the constructor stores a shallow copy of the config
    object, a new object with the same properties.  Setting or deleting a
    property of the caller's config object, or of any other object that
    existed before the construction, leaves the properties of the stored
    configuration as they were at construction, so that every option read
    from [this.config] keeps its value. *)
Theorem constructor_copies_config_shallowly cls n l o deps character
    (h : gmap loc (gmap string Value)) t h1 :
  h !! l = Some o ->
  constructor capitalize cls n (VRef l) deps character h = (Return t, h1) ->
  exists l',
    this_config t = VRef l'
    /\ l' <> l
    /\ h !! l' = None
    /\ h1 !! l' = Some o
    /\ (forall l0 k v h2,
          is_Some (h !! l0) ->
          set_prop h1 (VRef l0) k v = Some h2 ->
          h2 !! l' = Some o
          /\ forall k', get_prop h2 (this_config t) k'
                        = get_prop h1 (this_config t) k')
    /\ (forall l0 k h2,
          is_Some (h !! l0) ->
          delete_prop h1 (VRef l0) k = Some h2 ->
          h2 !! l' = Some o
          /\ forall k', get_prop h2 (this_config t) k'
                        = get_prop h1 (this_config t) k').
Proof.
  intros Hl. unfold constructor. rewrite (clone_object _ _ _ Hl).
  destruct (define cls deps []); [| discriminate].
  destruct (extend cls deps a); [| discriminate].
  intros H. inversion H. subst. clear H. simpl.
  pose proof (fresh_unused h) as Hfresh.
  exists (fresh (dom h)).
  assert (Hne : forall l0, is_Some (h !! l0) -> l0 <> fresh (dom h)).
  { intros l0 [x Hx] ->. congruence. }
  split; [reflexivity |]. split; [apply not_eq_sym, Hne; eauto |].
  split; [exact Hfresh |]. split; [apply lookup_insert_eq |].
  split.
  - intros l0 k v h2 Hin. unfold set_prop.
    destruct (<[fresh (dom h):=o]> h !! l0) as [g |]; [| done].
    intros H. inversion H. subst.
    assert (Hk : <[l0:=<[k:=v]> g]> (<[fresh (dom h):=o]> h) !! fresh (dom h)
                 = Some o)
      by (rewrite lookup_insert_ne by (apply Hne, Hin); apply lookup_insert_eq).
    split; [exact Hk |].
    intros k'. unfold get_prop. now rewrite Hk, lookup_insert_eq.
  - intros l0 k h2 Hin. unfold delete_prop.
    destruct (<[fresh (dom h):=o]> h !! l0) as [g |]; [| done].
    intros H. inversion H. subst.
    assert (Hk : <[l0:=delete k g]> (<[fresh (dom h):=o]> h) !! fresh (dom h)
                 = Some o)
      by (rewrite lookup_insert_ne by (apply Hne, Hin); apply lookup_insert_eq).
    split; [exact Hk |].
    intros k'. unfold get_prop. now rewrite Hk, lookup_insert_eq.
Qed.

End ConstructionProperties.

(** * The theorems at concrete inputs *)

Example receive_unknown_account_onboarding :
  trace (snd (receiver no_fault STATUS_CODES local 1%nat 2%nat empty_world))
  = [FindOne 7 "local"; Create 7 "local";
     onboard_event account7 1500000000 (mkIdentity 1 [mkAccountRow 7 "local"]);
     authenticate_event 1500000000
       (mkUser (mkInfo account7 "local") (Some 1) None);
     SessionSet 1%nat (mkUser (mkInfo account7 "local") (Some 1) None);
     Redirect 2%nat 303 "/home"].
Proof. reflexivity. Qed.

Example receive_deferred_account :
  trace (snd (receiver no_fault STATUS_CODES mailer 1%nat 2%nat empty_world))
  = [authenticate_event 1500000000
       (mkUser (mkInfo magic_account "magic") None (Some true));
     Redirect 2%nat 303 "/check-mail"].
Proof. reflexivity. Qed.

(** Each step of the pipeline can be the one that throws. *)
Example receive_authenticate_throws :
  trace (snd (receiver no_fault STATUS_CODES unset 1%nat 2%nat empty_world))
  = [Redirect 2%nat 303 "/login?reason=Internal%20Server%20Error"].
Proof. reflexivity. Qed.

Example receive_identify_throws :
  trace (snd (receiver no_fault STATUS_CODES strict 1%nat 2%nat empty_world))
  = [FindOne 7 "local"; Redirect 2%nat 303 "/login?reason=Not%20Found"].
Proof. reflexivity. Qed.

Example receive_session_set_throws :
  trace (snd (receiver session_down STATUS_CODES local 1%nat 2%nat linked_world))
  = [FindOne 7 "local";
     authenticate_event 1500000000
       (mkUser (mkInfo account7 "local") (Some 1) None);
     Redirect 2%nat 303 "/login?reason=Internal%20Server%20Error"].
Proof. reflexivity. Qed.

Example receive_success_redirect_throws :
  trace (snd (receiver home_unreachable STATUS_CODES local 1%nat 2%nat linked_world))
  = [FindOne 7 "local";
     authenticate_event 1500000000
       (mkUser (mkInfo account7 "local") (Some 1) None);
     SessionSet 1%nat (mkUser (mkInfo account7 "local") (Some 1) None);
     Redirect 2%nat 303 "/login?reason=Bad%20Gateway"].
Proof. reflexivity. Qed.

Example POST_routes :
  define POSTAuthenticator some_deps []
  = Return [mkRoute "post" "/" [Middleware (VRef 10%positive); CallReceiver]].
Proof. reflexivity. Qed.

Example POST_without_session :
  exists e,
    define POSTAuthenticator no_session [] = Throw e /\ httpStatusCode e = None.
Proof. eexists. split; reflexivity. Qed.

Example base_class_cannot_be_constructed :
  fst (constructor capitalize_ascii BaseAuthenticator "local" (VRef 1%positive)
         some_deps (mkCharacter registry) caller_heap)
  = Throw (mkError "Authenticator#define must be overriden by subclass" None).
Proof. reflexivity. Qed.

Example attached_models :
  attachModels capitalize_ascii "local" registry
  = {["Password" := VRef 20%positive]}.
Proof. vm_compute. reflexivity. Qed.

Lemma identify_deferred_skips_store_witness :
  truthy (account_deferred (auth_account magic_ctx)) = true
  /\ identities (snd (identify no_fault mailer magic_ctx empty_world))
     = identities empty_world.
Proof.
  split; [reflexivity |].
  destruct (identify_deferred_skips_store no_fault mailer magic_ctx empty_world
              eq_refl) as (_ & H & _).
  exact H.
Defined.

Lemma identify_reuses_linked_identity_witness :
  truthy (account_deferred (auth_account ctx7)) = false
  /\ findIdentity no_fault local (auth_account ctx7) linked_world
     = (Return (Some (mkFound 1)), log (FindOne 7 "local") linked_world)
  /\ identities (snd (identify no_fault local ctx7 linked_world))
     = identities linked_world.
Proof.
  split; [reflexivity |]. split; [reflexivity |].
  destruct (identify_reuses_linked_identity no_fault local ctx7 linked_world
              (mkFound 1) (log (FindOne 7 "local") linked_world)
              eq_refl eq_refl) as (_ & H & _).
  exact H.
Defined.

Lemma identify_onboards_unknown_account_witness :
  exists w',
    identify no_fault local ctx7 empty_world
    = (Return (mkUserContext 1%nat 2%nat
                 (mkUser (mkInfo account7 "local") (Some 1) None)), w')
    /\ identities w' = [mkIdentity 1 [mkAccountRow 7 "local"]].
Proof.
  destruct (identify_onboards_unknown_account no_fault local ctx7 empty_world
              (log (FindOne 7 "local") empty_world)
              eq_refl eq_refl eq_refl eq_refl
              (fun _ => eq_refl) (fun _ => eq_refl))
    as (w' & H & Hdb & _).
  exists w'. split; [exact H | exact Hdb].
Defined.

Lemma identify_rejects_unknown_account_witness :
  exists e,
    identify no_fault strict ctx7 empty_world
    = (Throw e, log (FindOne 7 "local") empty_world)
    /\ httpStatusCode e = Some 404.
Proof.
  destruct (identify_rejects_unknown_account no_fault strict ctx7 empty_world
              (log (FindOne 7 "local") empty_world)
              eq_refl eq_refl eq_refl)
    as (e & H & Hc & _).
  exists e. split; [exact H | exact Hc].
Defined.


Lemma receiver_failure_redirect_witness :
  pipeline no_fault strict 1%nat (mkContext 1%nat 2%nat) empty_world
  = (Throw (mkError "Could not find identity for account" (Some 404)),
     log (FindOne 7 "local") empty_world)
  /\ receiver no_fault STATUS_CODES strict 1%nat 2%nat empty_world
     = (Return tt,
        log (Redirect 2%nat 303 "/login?reason=Not%20Found")
          (log (FindOne 7 "local") empty_world)).
Proof.
  split; [reflexivity |].
  destruct (receiver_failure_redirect no_fault STATUS_CODES strict 1%nat 2%nat
              empty_world
              (mkError "Could not find identity for account" (Some 404))
              (log (FindOne 7 "local") empty_world) eq_refl eq_refl)
    as (H & _).
  exact H.
Defined.

Lemma receiver_success_witness :
  exists w',
    pipeline no_fault mailer 1%nat (mkContext 1%nat 2%nat) empty_world
    = (Return tt, w')
    /\ receiver no_fault STATUS_CODES mailer 1%nat 2%nat empty_world
       = (Return tt, w').
Proof.
  exists (snd (pipeline no_fault mailer 1%nat (mkContext 1%nat 2%nat) empty_world)).
  split; [reflexivity |].
  destruct (receiver_success no_fault STATUS_CODES mailer 1%nat 2%nat empty_world
              (snd (pipeline no_fault mailer 1%nat (mkContext 1%nat 2%nat)
                      empty_world))
              eq_refl)
    as (actx & w1 & uctx & w2 & _ & _ & _ & _ & _ & _ & H).
  exact H.
Defined.

Lemma identify_emits_authenticate_witness :
  exists r w',
    identify no_fault mailer magic_ctx empty_world = (Return r, w')
    /\ trace w' = trace empty_world ++ [authenticate_event (clock w') (uctx_user r)].
Proof.
  exists (mkUserContext 1%nat 2%nat
            (mkUser (mkInfo magic_account "magic") None (Some true))).
  exists (snd (identify no_fault mailer magic_ctx empty_world)).
  split; [reflexivity |].
  destruct (identify_emits_authenticate no_fault mailer magic_ctx empty_world
              (mkUserContext 1%nat 2%nat
                 (mkUser (mkInfo magic_account "magic") None (Some true)))
              (snd (identify no_fault mailer magic_ctx empty_world))
              eq_refl)
    as (_ & H).
  exact (proj1 (proj2 (H eq_refl))).
Defined.

Lemma attachModels_binds_prefixed_models_witness :
  attachModels capitalize_ascii "local" registry !! "Password"
  = registry !! "Authentication$Local$Password".
Proof.
  exact (proj1 (attachModels_binds_prefixed_models capitalize_ascii "local"
                  registry) "Password").
Defined.

(** The claim as it stands, any mutation leaving nested values unchanged:
    after the construction the caller assigns
    [config.urls.successRedirect = "/evil"], and the stored configuration
    reads the new value. *)
Lemma nested_config_is_shared :
  exists t h1 h2,
    constructor capitalize_ascii POSTAuthenticator "local" (VRef 1%positive)
      some_deps (mkCharacter registry) caller_heap = (Return t, h1)
    /\ assign_path h1 (VRef 1%positive) ["urls"] "successRedirect" (VStr "/evil")
       = Some h2
    /\ get_path h1 (this_config t) ["urls"; "successRedirect"]
       = Some (VStr "/home")
    /\ get_path h2 (this_config t) ["urls"; "successRedirect"]
       = Some (VStr "/evil").
Proof.
  eexists _, _, _. split; [reflexivity |]. split; [reflexivity |].
  split; vm_compute; reflexivity.
Defined.

Lemma constructor_copies_config_shallowly_witness :
  exists t h1,
    constructor capitalize_ascii POSTAuthenticator "local" (VRef 1%positive)
      some_deps (mkCharacter registry) caller_heap = (Return t, h1)
    /\ exists l', this_config t = VRef l' /\ l' <> 1%positive.
Proof.
  eexists _, _. split; [reflexivity |].
  destruct (constructor_copies_config_shallowly capitalize_ascii
              POSTAuthenticator "local" 1%positive
              (<["failureRedirect" := VStr "/login"]> {["urls" := VRef 2%positive]})
              some_deps (mkCharacter registry) caller_heap _ _
              eq_refl eq_refl)
    as (l' & H1 & H2 & _).
  exists l'. split; [exact H1 | exact H2].
Defined.

(** * Further properties of the pipeline *)

Section PipelineProperties.

Variable host_fault : Effect -> option Error.
Variable httpCodeMessage : Z -> option string.

(** *** [identify], branch by branch *)

Lemma identify_deferred_eq self ctx w :
  truthy (account_deferred (auth_account ctx)) = true ->
  let user := mkUser (mkInfo (auth_account ctx) (name self)) None (Some true) in
  host_fault (authenticate_event (clock w) user) = None ->
  identify host_fault self ctx w
  = (Return (mkUserContext (auth_req ctx) (auth_res ctx) user),
     log (authenticate_event (clock w) user) w).
Proof.
  intros Hd user He. unfold identify. rewrite Hd.
  unfold bind, ret, new_Date, emit. simpl.
  fold user. fold (authenticate_event (clock w) user).
  now rewrite (perform_ok _ _ _ He).
Qed.

Lemma identify_reject_eq self ctx w :
  truthy (account_deferred (auth_account ctx)) = false ->
  host_fault (FindOne (account_id (auth_account ctx)) (name self)) = None ->
  select_identity (account_id (auth_account ctx)) (name self) (identities w)
  = None ->
  truthy (onboardKnownAccounts (config self)) = false ->
  identify host_fault self ctx w
  = (Throw (mkError "Could not find identity for account" (Some NOT_FOUND)),
     log (FindOne (account_id (auth_account ctx)) (name self)) w).
Proof.
  intros Hd Hf Hs Hk. unfold identify. rewrite Hd.
  unfold bind at 1. unfold bind at 1.
  rewrite (findIdentity_ok _ _ _ _ Hf), Hs, Hk. reflexivity.
Qed.

Lemma identify_onboard_eq self ctx w :
  truthy (account_deferred (auth_account ctx)) = false ->
  host_fault (FindOne (account_id (auth_account ctx)) (name self)) = None ->
  select_identity (account_id (auth_account ctx)) (name self) (identities w)
  = None ->
  truthy (onboardKnownAccounts (config self)) = true ->
  host_fault (Create (account_id (auth_account ctx)) (name self)) = None ->
  (forall p, host_fault (Emit "authentication:onboard" p) = None) ->
  (forall p, host_fault (Emit "authentication:authenticate" p) = None) ->
  let identity := new_identity self (auth_account ctx) (identities w) in
  identify host_fault self ctx w
  = (Return (mkUserContext (auth_req ctx) (auth_res ctx)
               (mkUser (mkInfo (auth_account ctx) (name self))
                  (Some (identity_id identity)) None)),
     onboarded_world self (auth_account ctx) w).
Proof.
  intros Hd Hf Hs Hk Hc Ho Ha identity. unfold identify. rewrite Hd.
  unfold bind at 1. unfold bind at 1.
  rewrite (findIdentity_ok _ _ _ _ Hf), Hs, Hk.
  unfold bind at 1. rewrite (onboard_ok _ self (auth_account ctx) _ Hc Ho).
  unfold bind, ret, new_Date, emit. simpl.
  now rewrite (perform_ok _ _ _ (Ha _)).
Qed.

Lemma identify_known_eq self ctx w found :
  truthy (account_deferred (auth_account ctx)) = false ->
  host_fault (FindOne (account_id (auth_account ctx)) (name self)) = None ->
  select_identity (account_id (auth_account ctx)) (name self) (identities w)
  = Some found ->
  (forall p, host_fault (Emit "authentication:authenticate" p) = None) ->
  let user :=
    mkUser (mkInfo (auth_account ctx) (name self)) (Some (found_id found)) None in
  identify host_fault self ctx w
  = (Return (mkUserContext (auth_req ctx) (auth_res ctx) user),
     log (authenticate_event (clock w) user)
       (log (FindOne (account_id (auth_account ctx)) (name self)) w)).
Proof.
  intros Hd Hf Hs Ha user.
  pose proof (findIdentity_ok _ self (auth_account ctx) w Hf) as Hfi.
  rewrite Hs in Hfi.
  rewrite (identify_found_eq _ _ _ _ _ _ Hd Hfi). simpl.
  fold user. unfold authenticate_event. now rewrite Ha.
Qed.

(** *** The store *)

Lemma select_some_inv accountId n db found :
  select_identity accountId n db = Some found ->
  exists i, In i db /\ linked accountId n i = true
            /\ found_id found = identity_id i.
Proof.
  unfold select_identity.
  destruct (find (linked accountId n) db) as [i |] eqn:Hf; [| discriminate].
  intros H. inversion H. subst. simpl.
  apply find_some in Hf. destruct Hf as [Hin Hl].
  exists i. split; [exact Hin | split; [exact Hl | reflexivity]].
Qed.

Lemma linked_new_identity self account db accountId n :
  linked accountId n (new_identity self account db)
  = (account_id account =? accountId) && String.eqb (name self) n.
Proof.
  unfold linked, new_identity, row_matches. simpl. now rewrite orb_false_r.
Qed.

(** What [identify] does to the store, whatever its outcome. *)
Lemma identify_store self ctx w :
  let account := auth_account ctx in
  identities (snd (identify host_fault self ctx w)) = identities w
  \/ (select_identity (account_id account) (name self) (identities w) = None
      /\ identities (snd (identify host_fault self ctx w))
         = identities w ++ [new_identity self account (identities w)]).
Proof.
  unfold identify, findIdentity, findOne, onboard, create, emit.
  unfold bind, ret, throw, new_Date, perform.
  destruct (truthy (account_deferred (auth_account ctx))); simpl.
  - destruct (host_fault _); simpl; auto.
  - destruct (host_fault (FindOne _ _)); simpl; [auto |].
    destruct (select_identity _ _ _) eqn:Hs; simpl.
    + destruct (host_fault _); simpl; auto.
    + destruct (truthy (onboardKnownAccounts (config self))); simpl; [| auto].
      destruct (host_fault (Create _ _)); simpl; [auto |].
      destruct (host_fault (Emit "authentication:onboard" _)); simpl; [auto |].
      destruct (host_fault _); simpl; auto.
Qed.

(** X1: whatever the account, the configuration and the failures of the
    host, [identify] never removes or alters an identity: the store it
    leaves is the store it found, followed by at most one new identity. *)
Theorem identify_only_appends self ctx w :
  exists added,
    identities (snd (identify host_fault self ctx w)) = identities w ++ added
    /\ (length added <= 1)%nat.
Proof.
  destruct (identify_store self ctx w) as [H | [_ H]].
  - exists []. rewrite H, app_nil_r. split; [reflexivity | simpl; lia].
  - eexists. split; [exact H | simpl; lia].
Qed.

(** X2: one run of [identify] carried out on its own, with no write to
    the store by another request between its lookup and its creation,
    keeps the links unique: started on a store in which every pair
    (account id, authenticator name) is linked to at most one identity, it
    leaves such a store, whatever its outcome, since it onboards only after
    its lookup found nothing.  (Nothing is said of requests that
    interleave: the code takes no lock.) *)
Theorem identify_alone_keeps_links_unique self ctx w :
  links_unique (identities w) ->
  links_unique (identities (snd (identify host_fault self ctx w))).
Proof.
  intros Hu.
  destruct (identify_store self ctx w) as [H | [Hnone H]]; rewrite H;
    [exact Hu |].
  intros accountId n. rewrite List.filter_app, length_app. simpl.
  rewrite linked_new_identity.
  destruct (Z.eqb_spec (account_id (auth_account ctx)) accountId) as [<- |];
    simpl.
  - destruct (String.eqb_spec (name self) n) as [<- |]; simpl.
    + now rewrite (select_none_filter _ _ _ Hnone).
    + specialize (Hu (account_id (auth_account ctx)) n). lia.
  - specialize (Hu accountId n). lia.
Qed.

(** X3: [identify] itself never answers the request: whatever its outcome,
    none of the host calls it makes is a redirect or a session write. *)
Theorem identify_never_responds self ctx w :
  exists t,
    trace (snd (identify host_fault self ctx w)) = trace w ++ t
    /\ count is_redirect t = 0%nat
    /\ count is_session_set t = 0%nat.
Proof.
  destruct (identify_no_response host_fault self ctx w) as (t & Ht & Hr & Hs).
  now exists t.
Qed.

(** X4: [findIdentity] only reads.  When it returns, the store is as it
    was; a non-null result is the id of an identity of the store that has
    an account row with this account's id and this authenticator's name,
    and a null result means that no identity of the store has such a row. *)
Theorem findIdentity_sound_and_complete self account w r w1 :
  findIdentity host_fault self account w = (Return r, w1) ->
  identities w1 = identities w
  /\ match r with
     | Some found =>
         exists i row,
           In i (identities w) /\ identity_id i = found_id found
           /\ In row (authentication_Accounts i)
           /\ authenticatorAccountId row = account_id account
           /\ authenticatorName row = name self
     | None =>
         forall i row,
           In i (identities w) -> In row (authentication_Accounts i) ->
           ~ (authenticatorAccountId row = account_id account
              /\ authenticatorName row = name self)
     end.
Proof.
  intros H. destruct (findIdentity_returns _ _ _ _ _ _ H) as (_ & -> & ->).
  split; [reflexivity |].
  destruct (select_identity _ _ _) as [found |] eqn:Hs.
  - destruct (select_some_inv _ _ _ _ Hs) as (i & Hi & Hl & Hid).
    unfold linked in Hl. apply existsb_exists in Hl as (row & Hrow & Hm).
    unfold row_matches in Hm. apply andb_prop in Hm as [Ha Hn].
    exists i, row. repeat split; auto.
    + now apply Z.eqb_eq.
    + now apply String.eqb_eq.
  - intros i row Hi Hrow [Ha Hn].
    pose proof (select_none_filter _ _ _ Hs) as Hf.
    assert (Hin : In i (List.filter (linked (account_id account) (name self))
                          (identities w))).
    { apply filter_In. split; [exact Hi |].
      unfold linked. apply existsb_exists. exists row. split; [exact Hrow |].
      unfold row_matches. rewrite Ha, Hn, Z.eqb_refl, String.eqb_refl.
      reflexivity. }
    rewrite Hf in Hin. destruct Hin.
Qed.

(** X5: onboarding an account under one authenticator name does not change
    what a lookup returns for any other pair: a different account id, or
    the same id under a different authenticator name. *)
Theorem onboard_leaves_other_pairs self account w identity w1 accountId n :
  onboard host_fault self account w = (Return identity, w1) ->
  accountId <> account_id account \/ n <> name self ->
  select_identity accountId n (identities w1)
  = select_identity accountId n (identities w).
Proof.
  intros Ho Hne.
  destruct (onboard_returns _ _ _ _ _ _ Ho) as [-> ->]. simpl.
  rewrite select_identity_append.
  destruct (select_identity accountId n (identities w)); [reflexivity |].
  unfold select_identity. simpl. rewrite linked_new_identity.
  destruct (Z.eqb_spec (account_id account) accountId) as [Heq |]; simpl;
    [| reflexivity].
  destruct (String.eqb_spec (name self) n) as [Hn |]; [| reflexivity].
  destruct Hne as [Hne | Hne]; congruence.
Qed.

(** X6: logging in twice does not onboard twice.  For an account that is
    not deferred and not yet linked, with [onboardKnownAccounts] enabled and
    a host none of whose calls fails, a first [identify] onboards the
    account and a second [identify] of the same account returns the same
    user (the same id) and leaves the store as the first one left it. *)
Theorem identify_twice_onboards_once self ctx w :
  truthy (account_deferred (auth_account ctx)) = false ->
  select_identity (account_id (auth_account ctx)) (name self) (identities w)
  = None ->
  truthy (onboardKnownAccounts (config self)) = true ->
  (forall eff, host_fault eff = None) ->
  exists r w1 w2,
    identify host_fault self ctx w = (Return r, w1)
    /\ identify host_fault self ctx w1 = (Return r, w2)
    /\ identities w1
       = identities w ++ [new_identity self (auth_account ctx) (identities w)]
    /\ identities w2 = identities w1
    /\ user_id (uctx_user r)
       = Some (identity_id (new_identity self (auth_account ctx) (identities w))).
Proof.
  intros Hd Hs Hk Hok.
  set (identity := new_identity self (auth_account ctx) (identities w)).
  set (user := mkUser (mkInfo (auth_account ctx) (name self))
                 (Some (identity_id identity)) None).
  set (w1 := onboarded_world self (auth_account ctx) w).
  assert (Hs1 : select_identity (account_id (auth_account ctx)) (name self)
                  (identities w1)
                = Some (mkFound (identity_id identity))).
  { unfold w1, onboarded_world. simpl.
    rewrite select_identity_append, Hs.
    unfold select_identity. simpl. now rewrite new_identity_linked. }
  exists (mkUserContext (auth_req ctx) (auth_res ctx) user), w1.
  exists (log (authenticate_event (clock w1) user)
            (log (FindOne (account_id (auth_account ctx)) (name self)) w1)).
  split; [apply identify_onboard_eq; auto |].
  split; [| repeat split].
  exact (identify_known_eq self ctx w1 _ Hd (Hok _) Hs1 (fun p => Hok _)).
Qed.

(** X7: [onboard] does not undo the creation when the event cannot be
    delivered: if the creation succeeds and the emission of the onboard
    event throws, [onboard] throws that error and the new identity, with
    its account row, is in the store. *)
Theorem onboard_keeps_identity_when_emit_throws self account w e :
  host_fault (Create (account_id account) (name self)) = None ->
  host_fault (onboard_event account (clock w)
                (new_identity self account (identities w))) = Some e ->
  exists w1,
    onboard host_fault self account w = (Throw e, w1)
    /\ identities w1
       = identities w ++ [new_identity self account (identities w)]
    /\ trace w1 = trace w ++ [Create (account_id account) (name self)].
Proof.
  intros Hc He. eexists. split.
  - unfold onboard, create, emit, bind, new_Date.
    rewrite (perform_ok _ _ _ Hc). simpl.
    unfold perform. fold (new_identity self account (identities w)).
    fold (onboard_event account (clock w)
            (new_identity self account (identities w))).
    rewrite He. reflexivity.
  - split; reflexivity.
Qed.

(** *** [receiver] *)

Lemma pipeline_returns self req res w w' :
  pipeline host_fault self req (mkContext req res) w = (Return tt, w') ->
  exists ws r url,
    w' = log (Redirect r SEE_OTHER url) ws
    /\ (url = successRedirect (config self)
        \/ url = deferredRedirect (config self)).
Proof.
  unfold pipeline, pipe, bind.
  destruct (authenticate self (mkContext req res) w) as [[actx | e0] w1];
    [| discriminate].
  destruct (identify host_fault self actx w1) as [[uctx | e1] w2];
    [| discriminate].
  destruct (set_session host_fault req uctx w2) as [[uctx' | e2] ws];
    [| discriminate].
  unfold redirect_user, redirect, perform.
  match goal with
  | |- context [host_fault ?eff] => destruct (host_fault eff)
  end; [discriminate |].
  intros H. inversion H. eexists _, _, _. split; [reflexivity |].
  destruct (field_truthy _); auto.
Qed.

(** X8: whenever [receiver] returns, the last host call it made is a See
    Other (303) redirect, and it goes to [successRedirect], to
    [deferredRedirect] or to [failureRedirect] followed by [?reason=] and a
    reason: [receiver] redirects nowhere else and with no other status. *)
Theorem receiver_returns_after_redirect self req res w r w' :
  receiver host_fault httpCodeMessage self req res w = (Return r, w') ->
  exists ws res' url,
    w' = log (Redirect res' SEE_OTHER url) ws
    /\ trace w' = trace ws ++ [Redirect res' SEE_OTHER url]
    /\ redirect_target httpCodeMessage self url.
Proof.
  unfold receiver, try_catch.
  destruct (pipeline host_fault self req (mkContext req res) w)
    as [[[] | e] w1] eqn:Hp.
  - intros H. inversion H. subst.
    destruct (pipeline_returns _ _ _ _ _ Hp) as (ws & res' & url & -> & Hu).
    exists ws, res', url. split; [reflexivity | split; [reflexivity |]].
    unfold redirect_target.
    destruct Hu as [Hu | Hu]; [left | right; left]; exact Hu.
  - rewrite on_error_redirects. unfold redirect, perform.
    destruct (host_fault _) as [e' |]; [discriminate |].
    intros H. inversion H. subst.
    eexists _, _, _. split; [reflexivity | split; [reflexivity |]].
    unfold redirect_target. right. right. now exists e.
Qed.

(** X9: an authenticator that did not override [authenticate] answers every
    request with the failure redirect carrying the status text of Internal
    Server Error (provided that redirect does not throw), and does nothing
    else: no lookup, no creation, no event, no session. *)
Theorem receiver_without_authenticate self req res w :
  authenticate self = base_authenticate (name self) ->
  let url :=
    failureRedirect (config self) +:+ "?reason=" +:+
    match httpCodeMessage INTERNAL_SERVER_ERROR with
    | Some text => escape text
    | None => ""
    end in
  host_fault (Redirect res SEE_OTHER url) = None ->
  receiver host_fault httpCodeMessage self req res w
  = (Return tt, log (Redirect res SEE_OTHER url) w).
Proof.
  intros Ha url Hr.
  unfold receiver, try_catch, pipeline, pipe, bind. rewrite Ha. simpl.
  rewrite on_error_redirects. unfold redirect.
  now rewrite (perform_ok _ _ _ Hr).
Qed.

(** X10: the [catch] block on unusual status codes.  An [httpStatusCode] of
    [0] is falsy and is treated as unset: the reason is the text of Internal
    Server Error.  A code that has no status text gives an empty reason:
    the redirect goes to [failureRedirect] followed by [?reason=]. *)
Theorem on_error_unusual_codes self res error w :
  (httpStatusCode error = Some 0 ->
   on_error host_fault httpCodeMessage self res error w
   = on_error host_fault httpCodeMessage self res
       (mkError (message error) None) w)
  /\ (httpCodeMessage (or_default (httpStatusCode error) INTERNAL_SERVER_ERROR)
      = None ->
      on_error host_fault httpCodeMessage self res error w
      = redirect host_fault res SEE_OTHER
          (failureRedirect (config self) +:+ "?reason=") w).
Proof.
  split.
  - intros H. unfold on_error. now rewrite H.
  - intros H. unfold on_error. rewrite H. reflexivity.
Qed.

(** X11: nothing is rolled back when the session cannot be written.  If
    [authenticate] and [identify] have returned a user that is not deferred
    and the session write throws, [receiver] answers with the failure
    redirect for that error, and the world is the one [identify] left (the
    identity it may have onboarded is in the store, the authenticate event
    has been emitted) plus that redirect. *)
Theorem receiver_session_failure_keeps_effects self req res w actx w1 uctx w2 e :
  authenticate self (mkContext req res) w = (Return actx, w1) ->
  identify host_fault self actx w1 = (Return uctx, w2) ->
  field_truthy (user_deferred (uctx_user uctx)) = false ->
  host_fault (SessionSet req (uctx_user uctx)) = Some e ->
  host_fault (Redirect res SEE_OTHER (failure_url httpCodeMessage self e)) = None ->
  receiver host_fault httpCodeMessage self req res w
  = (Return tt,
     log (Redirect res SEE_OTHER (failure_url httpCodeMessage self e)) w2).
Proof.
  intros Ha Hi Hd Hs Hr.
  unfold receiver, try_catch, pipeline, pipe, bind. rewrite Ha, Hi.
  unfold set_session, bind, perform. rewrite Hd, Hs. simpl.
  rewrite on_error_redirects. unfold redirect.
  now rewrite (perform_ok _ _ _ Hr).
Qed.

(** *** End to end *)

(** X12: first login of an unknown account with onboarding enabled.  When
    [authenticate] reports an account that is not deferred and not linked,
    [onboardKnownAccounts] is enabled and no host call fails, [receiver]
    looks the account up, creates the identity, emits the onboard event and
    the authenticate event, writes the session with the new identity's id
    and redirects (303) to [successRedirect], in this order. *)
Theorem receiver_onboards_new_account self req res w actx w1 :
  authenticate self (mkContext req res) w = (Return actx, w1) ->
  truthy (account_deferred (auth_account actx)) = false ->
  select_identity (account_id (auth_account actx)) (name self) (identities w1)
  = None ->
  truthy (onboardKnownAccounts (config self)) = true ->
  (forall eff, host_fault eff = None) ->
  let account := auth_account actx in
  let identity := new_identity self account (identities w1) in
  let user := mkUser (mkInfo account (name self)) (Some (identity_id identity)) None in
  exists w',
    receiver host_fault httpCodeMessage self req res w = (Return tt, w')
    /\ identities w' = identities w1 ++ [identity]
    /\ trace w' =
       trace w1 ++
       [FindOne (account_id account) (name self);
        Create (account_id account) (name self);
        onboard_event account (clock w1) identity;
        authenticate_event (clock w1) user;
        SessionSet req user;
        Redirect (auth_res actx) SEE_OTHER (successRedirect (config self))].
Proof.
  intros Ha Hd Hs Hk Hok account identity user.
  eexists. split.
  - unfold receiver, try_catch, pipeline, pipe, bind. rewrite Ha.
    rewrite (identify_onboard_eq self actx w1 Hd (Hok _) Hs Hk (Hok _)
               (fun p => Hok _) (fun p => Hok _)).
    unfold set_session, redirect_user, redirect, bind, ret, perform. simpl.
    rewrite !Hok. reflexivity.
  - split; [reflexivity |]. simpl. now rewrite <- !app_assoc.
Qed.

(** X13: login of a known account.  When [authenticate] reports an account
    that is not deferred and for which the store has a linked identity, and
    no host call fails, [receiver] looks the account up, emits the
    authenticate event, writes the session with that identity's id and
    redirects (303) to [successRedirect]; the store is not changed. *)
Theorem receiver_logs_in_known_account self req res w actx w1 found :
  authenticate self (mkContext req res) w = (Return actx, w1) ->
  truthy (account_deferred (auth_account actx)) = false ->
  select_identity (account_id (auth_account actx)) (name self) (identities w1)
  = Some found ->
  (forall eff, host_fault eff = None) ->
  let account := auth_account actx in
  let user := mkUser (mkInfo account (name self)) (Some (found_id found)) None in
  exists w',
    receiver host_fault httpCodeMessage self req res w = (Return tt, w')
    /\ identities w' = identities w1
    /\ trace w' =
       trace w1 ++
       [FindOne (account_id account) (name self);
        authenticate_event (clock w1) user;
        SessionSet req user;
        Redirect (auth_res actx) SEE_OTHER (successRedirect (config self))].
Proof.
  intros Ha Hd Hs Hok account user.
  eexists. split.
  - unfold receiver, try_catch, pipeline, pipe, bind. rewrite Ha.
    rewrite (identify_known_eq self actx w1 found Hd (Hok _) Hs
               (fun p => Hok _)).
    unfold set_session, redirect_user, redirect, bind, ret, perform. simpl.
    rewrite !Hok. reflexivity.
  - split; [reflexivity |]. simpl. now rewrite <- !app_assoc.
Qed.

(** X14: login of an unknown account with onboarding disabled.  When
    [authenticate] reports an account that is not deferred and not linked
    and [onboardKnownAccounts] is falsy, [receiver] makes the lookup and
    then redirects (303) to [failureRedirect] with the status text of Not
    Found as reason; nothing is created, no event is emitted and no session
    is written. *)
Theorem receiver_rejects_unknown_account self req res w actx w1 :
  authenticate self (mkContext req res) w = (Return actx, w1) ->
  truthy (account_deferred (auth_account actx)) = false ->
  select_identity (account_id (auth_account actx)) (name self) (identities w1)
  = None ->
  truthy (onboardKnownAccounts (config self)) = false ->
  let url :=
    failureRedirect (config self) +:+ "?reason=" +:+
    match httpCodeMessage NOT_FOUND with
    | Some text => escape text
    | None => ""
    end in
  host_fault (FindOne (account_id (auth_account actx)) (name self)) = None ->
  host_fault (Redirect res SEE_OTHER url) = None ->
  exists w',
    receiver host_fault httpCodeMessage self req res w = (Return tt, w')
    /\ identities w' = identities w1
    /\ trace w' =
       trace w1 ++
       [FindOne (account_id (auth_account actx)) (name self);
        Redirect res SEE_OTHER url].
Proof.
  intros Ha Hd Hs Hk url Hf Hr.
  eexists. split.
  - unfold receiver, try_catch, pipeline, pipe, bind. rewrite Ha.
    rewrite (identify_reject_eq self actx w1 Hd Hf Hs Hk).
    rewrite on_error_redirects. unfold redirect.
    change (failure_url httpCodeMessage self
              (mkError "Could not find identity for account" (Some NOT_FOUND)))
      with url.
    rewrite (perform_ok _ _ _ Hr). reflexivity.
  - split; [reflexivity |]. simpl. now rewrite <- !app_assoc.
Qed.

(** X15: a deferred flow.  When [authenticate] reports an account whose
    [deferred] flag is truthy, and the emission and the redirect do not
    throw, [receiver] emits the authenticate event for a user without id
    and redirects (303) to [deferredRedirect]: no lookup, no creation, no
    session, whether or not the account is linked and whatever
    [onboardKnownAccounts] is. *)
Theorem receiver_defers self req res w actx w1 :
  authenticate self (mkContext req res) w = (Return actx, w1) ->
  truthy (account_deferred (auth_account actx)) = true ->
  let user := mkUser (mkInfo (auth_account actx) (name self)) None (Some true) in
  host_fault (authenticate_event (clock w1) user) = None ->
  host_fault (Redirect (auth_res actx) SEE_OTHER (deferredRedirect (config self)))
  = None ->
  exists w',
    receiver host_fault httpCodeMessage self req res w = (Return tt, w')
    /\ identities w' = identities w1
    /\ trace w' =
       trace w1 ++
       [authenticate_event (clock w1) user;
        Redirect (auth_res actx) SEE_OTHER (deferredRedirect (config self))].
Proof.
  intros Ha Hd user He Hr.
  eexists. split.
  - unfold receiver, try_catch, pipeline, pipe, bind. rewrite Ha.
    rewrite (identify_deferred_eq self actx w1 Hd He).
    unfold set_session, redirect_user, redirect, bind, ret. simpl.
    rewrite (perform_ok _ _ _ Hr). reflexivity.
  - split; [reflexivity |]. simpl. now rewrite <- !app_assoc.
Qed.

End PipelineProperties.

(** * Further properties of the construction *)

Section ConstructionFurther.

Variable capitalize : string -> string.

Lemma append_cancel prefix a b : prefix +:+ a = prefix +:+ b -> a = b.
Proof.
  intros H. rewrite <- (slice_append prefix a), <- (slice_append prefix b).
  now rewrite H.
Qed.

Lemma startsWith_dollar c : forall s,
  startsWith s (c +:+ "$") = true -> In "$"%char (list_ascii_of_string s).
Proof.
  induction c as [| a c IH]; intros [| x s]; simpl; try discriminate.
  - intros H. apply andb_prop in H as [H _]. apply Ascii.eqb_eq in H. auto.
  - intros H. apply andb_prop in H as [_ H]. right. now apply IH.
Qed.

(** X16: models of other owners do not matter.  Registering, replacing or
    removing a model whose name does not start with this authenticator's
    prefix leaves [this.models] as it is.  In particular the two models
    that [findIdentity] and [onboard] read from the registry,
    [Core$Identity] and [Authentication$Account], are never bound, whatever
    the authenticator's name. *)
Theorem attachModels_ignores_other_models n (models : gmap string Value) :
  (forall name model,
     startsWith name (models_prefix capitalize n) = false ->
     attachModels capitalize n (<[name := model]> models)
     = attachModels capitalize n models
     /\ attachModels capitalize n (delete name models)
        = attachModels capitalize n models)
  /\ startsWith "Core$Identity" (models_prefix capitalize n) = false
  /\ startsWith "Authentication$Account" (models_prefix capitalize n) = false.
Proof.
  split; [| split].
  - intros name model Hs.
    assert (Hne : forall short, name <> models_prefix capitalize n +:+ short).
    { intros short ->. now rewrite startsWith_append in Hs. }
    split; apply map_eq; intros short; rewrite !attachModels_lookup.
    + rewrite lookup_insert_ne; [reflexivity | apply Hne].
    + rewrite lookup_delete_ne; [reflexivity | apply Hne].
  - reflexivity.
  - unfold models_prefix.
    destruct (startsWith "Authentication$Account"
                ("Authentication$" +:+ capitalize n +:+ "$")) eqn:Hs;
      [| reflexivity].
    apply (startsWith_dollar (capitalize n) "Account") in Hs.
    simpl in Hs. repeat (destruct Hs as [Hs | Hs]; [discriminate Hs |]).
    destruct Hs.
Qed.

(** X17: registering a model under prefix + short name adds the binding of
    that short name to [this.models] and changes no other binding. *)
Theorem attachModels_registers_own_model n (models : gmap string Value)
    short model :
  attachModels capitalize n
    (<[models_prefix capitalize n +:+ short := model]> models)
  = <[short := model]> (attachModels capitalize n models).
Proof.
  apply map_eq. intros short'. rewrite attachModels_lookup.
  destruct (decide (short = short')) as [<- | Hne].
  - now rewrite !lookup_insert_eq.
  - rewrite !lookup_insert_ne; [now rewrite attachModels_lookup | exact Hne |].
    intros H. apply Hne. exact (append_cancel _ _ _ H).
Qed.

(** X18: the constructor does not touch the objects it is given: every
    object of the heap, the caller's config among them, has after the
    construction the properties it had before, whether the construction
    succeeds or throws; and a config that is not an object is stored as it
    is, the heap being left as it was. *)
Theorem constructor_preserves_heap cls n config deps character
    (h : gmap loc (gmap string Value)) :
  let out := constructor capitalize cls n config deps character h in
  (forall l o, h !! l = Some o -> snd out !! l = Some o)
  /\ ((forall l, config <> VRef l) ->
      snd out = h
      /\ forall t, fst out = Return t -> this_config t = config).
Proof.
  unfold constructor.
  assert (Hc : forall l o, h !! l = Some o -> fst (clone h config) !! l = Some o).
  { intros l o Hl. unfold clone.
    destruct config; simpl; auto.
    destruct (h !! l0) eqn:Hl0; simpl; auto.
    rewrite lookup_insert_ne; [exact Hl |].
    intros <-. rewrite fresh_unused in Hl. discriminate. }
  assert (Hp : (forall l, config <> VRef l) -> clone h config = (h, config)).
  { intros Hn. destruct config; try reflexivity. now destruct (Hn l). }
  destruct (clone h config) as [h' config'] eqn:Hcl. simpl in Hc.
  split.
  - intros l o Hl.
    destruct (define cls deps []); simpl; [| auto].
    destruct (extend cls deps a); simpl; auto.
  - intros Hn. specialize (Hp Hn). inversion Hp. subst.
    destruct (define cls deps []); simpl; [| split; [reflexivity | discriminate]].
    destruct (extend cls deps a); simpl; [| split; [reflexivity | discriminate]].
    split; [reflexivity |]. intros t Ht. now inversion Ht.
Qed.

(** X19: the copy protects the caller too: setting a property of the stored
    configuration ([this.config.k = v]) succeeds and leaves the properties
    of the caller's config object as they were. *)
Theorem stored_config_writes_stay_local cls n l o deps character
    (h : gmap loc (gmap string Value)) t h1 k v :
  h !! l = Some o ->
  constructor capitalize cls n (VRef l) deps character h = (Return t, h1) ->
  exists h2,
    set_prop h1 (this_config t) k v = Some h2
    /\ h2 !! l = Some o
    /\ get_prop h2 (this_config t) k = Some v
    /\ forall k', get_prop h2 (VRef l) k' = get_prop h (VRef l) k'.
Proof.
  intros Hl. unfold constructor. rewrite (clone_object _ _ _ Hl).
  destruct (define cls deps []); [| discriminate].
  destruct (extend cls deps a); [| discriminate].
  intros H. inversion H. subst. clear H. simpl.
  assert (Hne : fresh (dom h) <> l).
  { intros Heq. pose proof (fresh_unused h) as Hf. rewrite Heq in Hf.
    congruence. }
  rewrite lookup_insert_eq. eexists. split; [reflexivity |].
  assert (Hk : <[fresh (dom h):=<[k:=v]> o]> (<[fresh (dom h):=o]> h) !! l
               = Some o)
    by (rewrite !lookup_insert_ne by exact Hne; exact Hl).
  split; [exact Hk |]. split.
  - unfold get_prop. now rewrite !lookup_insert_eq.
  - intros k'. unfold get_prop. now rewrite Hk, Hl.
Qed.


End ConstructionFurther.

(** * The further properties at concrete inputs *)

Lemma identify_alone_keeps_links_unique_witness :
  links_unique (identities empty_world)
  /\ links_unique (identities (snd (identify no_fault local ctx7 empty_world))).
Proof.
  assert (H : links_unique (identities empty_world))
    by (intros accountId n; simpl; lia).
  split; [exact H |].
  exact (identify_alone_keeps_links_unique no_fault local ctx7 empty_world H).
Defined.

Lemma findIdentity_sound_and_complete_witness :
  findIdentity no_fault local account7 linked_world
  = (Return (Some (mkFound 1)), log (FindOne 7 "local") linked_world)
  /\ identities (log (FindOne 7 "local") linked_world) = identities linked_world.
Proof.
  split; [reflexivity |].
  exact (proj1 (findIdentity_sound_and_complete no_fault local account7
                  linked_world (Some (mkFound 1))
                  (log (FindOne 7 "local") linked_world) eq_refl)).
Defined.

Lemma onboard_leaves_other_pairs_witness :
  select_identity 7 "local"
    (identities (snd (onboard no_fault mailer magic_account linked_world)))
  = select_identity 7 "local" (identities linked_world).
Proof.
  refine (onboard_leaves_other_pairs no_fault mailer magic_account linked_world
            (mkIdentity 2 [mkAccountRow 9 "magic"])
            (snd (onboard no_fault mailer magic_account linked_world))
            7 "local" eq_refl _).
  left. discriminate.
Defined.

Lemma identify_twice_onboards_once_witness :
  exists r w1 w2,
    identify no_fault local ctx7 empty_world = (Return r, w1)
    /\ identify no_fault local ctx7 w1 = (Return r, w2)
    /\ identities w2 = [mkIdentity 1 [mkAccountRow 7 "local"]].
Proof.
  destruct (identify_twice_onboards_once no_fault local ctx7 empty_world
              eq_refl eq_refl eq_refl (fun _ => eq_refl))
    as (r & w1 & w2 & H1 & H2 & Hdb1 & Hdb2 & _).
  exists r, w1, w2. split; [exact H1 |]. split; [exact H2 |].
  rewrite Hdb2, Hdb1. reflexivity.
Defined.

Lemma onboard_keeps_identity_when_emit_throws_witness :
  exists w1,
    onboard listeners_down local account7 empty_world
    = (Throw (mkError "listener failed" None), w1)
    /\ identities w1 = [mkIdentity 1 [mkAccountRow 7 "local"]].
Proof.
  destruct (onboard_keeps_identity_when_emit_throws listeners_down local
              account7 empty_world (mkError "listener failed" None)
              eq_refl eq_refl)
    as (w1 & H & Hdb & _).
  exists w1. split; [exact H | exact Hdb].
Defined.

Lemma receiver_without_authenticate_witness :
  receiver no_fault STATUS_CODES unset 1%nat 2%nat linked_world
  = (Return tt,
     log (Redirect 2%nat 303 "/login?reason=Internal%20Server%20Error")
       linked_world).
Proof.
  exact (receiver_without_authenticate no_fault STATUS_CODES unset 1%nat 2%nat
           linked_world eq_refl eq_refl).
Defined.

Lemma receiver_session_failure_keeps_effects_witness :
  exists w2,
    receiver session_down STATUS_CODES local 1%nat 2%nat empty_world
    = (Return tt,
       log (Redirect 2%nat 303 "/login?reason=Internal%20Server%20Error") w2)
    /\ identities w2 = [mkIdentity 1 [mkAccountRow 7 "local"]].
Proof.
  exists (snd (identify session_down local ctx7 empty_world)).
  split; [| reflexivity].
  exact (receiver_session_failure_keeps_effects session_down STATUS_CODES local
           1%nat 2%nat empty_world ctx7 empty_world
           (mkUserContext 1%nat 2%nat
              (mkUser (mkInfo account7 "local") (Some 1) None))
           (snd (identify session_down local ctx7 empty_world))
           (mkError "session store unavailable" None)
           eq_refl eq_refl eq_refl eq_refl eq_refl).
Defined.

Lemma receiver_onboards_new_account_witness :
  exists w',
    receiver no_fault STATUS_CODES local 1%nat 2%nat empty_world = (Return tt, w')
    /\ identities w' = [mkIdentity 1 [mkAccountRow 7 "local"]].
Proof.
  destruct (receiver_onboards_new_account no_fault STATUS_CODES local 1%nat 2%nat
              empty_world ctx7 empty_world
              eq_refl eq_refl eq_refl eq_refl (fun _ => eq_refl))
    as (w' & H & Hdb & _).
  exists w'. split; [exact H | exact Hdb].
Defined.

Lemma receiver_logs_in_known_account_witness :
  exists w',
    receiver no_fault STATUS_CODES strict 1%nat 2%nat linked_world = (Return tt, w')
    /\ identities w' = identities linked_world.
Proof.
  destruct (receiver_logs_in_known_account no_fault STATUS_CODES strict 1%nat
              2%nat linked_world ctx7 linked_world (mkFound 1)
              eq_refl eq_refl eq_refl (fun _ => eq_refl))
    as (w' & H & Hdb & _).
  exists w'. split; [exact H | exact Hdb].
Defined.

Lemma receiver_rejects_unknown_account_witness :
  exists w',
    receiver no_fault STATUS_CODES strict 1%nat 2%nat empty_world = (Return tt, w')
    /\ trace w'
       = [FindOne 7 "local"; Redirect 2%nat 303 "/login?reason=Not%20Found"].
Proof.
  destruct (receiver_rejects_unknown_account no_fault STATUS_CODES strict 1%nat
              2%nat empty_world ctx7 empty_world
              eq_refl eq_refl eq_refl eq_refl eq_refl eq_refl)
    as (w' & H & _ & Ht).
  exists w'. split; [exact H | exact Ht].
Defined.

Lemma receiver_defers_witness :
  exists w',
    receiver no_fault STATUS_CODES mailer 1%nat 2%nat linked_world = (Return tt, w')
    /\ identities w' = identities linked_world.
Proof.
  destruct (receiver_defers no_fault STATUS_CODES mailer 1%nat 2%nat linked_world
              magic_ctx linked_world eq_refl eq_refl eq_refl eq_refl)
    as (w' & H & Hdb & _).
  exists w'. split; [exact H | exact Hdb].
Defined.

Lemma stored_config_writes_stay_local_witness :
  exists t h1 h2,
    constructor capitalize_ascii POSTAuthenticator "local" (VRef 1%positive)
      some_deps (mkCharacter registry) caller_heap = (Return t, h1)
    /\ set_prop h1 (this_config t) "failureRedirect" (VStr "/oops") = Some h2
    /\ get_prop h2 (VRef 1%positive) "failureRedirect" = Some (VStr "/login").
Proof.
  destruct (stored_config_writes_stay_local capitalize_ascii POSTAuthenticator
              "local" 1%positive
              (<["failureRedirect" := VStr "/login"]> {["urls" := VRef 2%positive]})
              some_deps (mkCharacter registry) caller_heap _ _
              "failureRedirect" (VStr "/oops") eq_refl eq_refl)
    as (h2 & Hs & _ & _ & Hk).
  eexists _, _, h2. split; [reflexivity |]. split; [exact Hs |].
  rewrite Hk. vm_compute. reflexivity.
Defined.

Lemma receiver_returns_after_redirect_witness :
  exists ws res' url,
    snd (receiver no_fault STATUS_CODES strict 1%nat 2%nat empty_world)
    = log (Redirect res' 303 url) ws.
Proof.
  destruct (receiver_returns_after_redirect no_fault STATUS_CODES strict
              1%nat 2%nat empty_world tt
              (snd (receiver no_fault STATUS_CODES strict 1%nat 2%nat
                      empty_world))
              eq_refl)
    as (ws & res' & url & H & _).
  exists ws, res', url. exact H.
Defined.

